(** * WaterDensity: synthetic mass/volume data and its least-squares fit

    A shallow embedding of [class_water_density.py].  The Python class
    [WaterDensity] keeps its data in two mutable fields ([df] and
    [fit_results]); its methods are modelled as functions from the object's
    state to an outcome and a new state.

    - Scalars are IEEE 754 binary64 numbers (Rocq's primitive [float]),
      which is what [numpy.float64] and Python's [float] are.  The
      reference constants [M0], [V0], [rho] are taken as floats.
    - A numpy division by zero gives NaN or an infinity (and a warning); it
      is the division of the primitive floats.  Only the division of two
      Python ints, [1 / N], raises.
    - On an array, [** 2] is numpy's [square], one multiplication per
      element; on a scalar it is a call of the power function.
    - The numpy routines the class calls ([np.sum], [np.linspace],
      [np.random.uniform], the scalar power) are not part of the
      repository: they are taken through the interface [NumPy], and a
      reference instance following numpy's algorithms is given to run the
      methods on concrete inputs.
    - [calculate_fit] returns the dictionary it stores, together with a
      one-row table of the same dictionary; the model returns the
      dictionary. *)

From Stdlib Require Import String.
From Stdlib Require Import ZArith List Bool Lia.
From Stdlib Require Import Floats.
From Stdlib Require Import Permutation.
From Stdlib Require DecimalString.
Import ListNotations.

(** ** Outcomes of a Python call *)

(** The exceptions that can leave the modelled methods.  The class itself
    raises [ValueError] only, when a method is called before the data
    exist; the other exceptions come from Python's integer division and
    from numpy. *)
Inductive exn : Type :=
| ValueError (msg : string)
| ZeroDivisionError
| OverflowError.

Inductive result (A : Type) : Type :=
| Ok (x : A)
| Raise (e : exn).

Arguments Ok {A} x.
Arguments Raise {A} e.

Definition is_ok {A} (r : result A) : bool :=
  match r with Ok _ => true | Raise _ => false end.

(** ** Numbers *)

Open Scope float_scope.

(** A Python [int] used where a float64 is expected ([N * sum_x2],
    [... / (N - 2)]).  Lengths of arrays are far below [2^63], where the
    primitive conversion is the round-to-nearest one Python performs. *)
Definition float_of_int (z : Z) : float :=
  if (z <? 0)%Z then - PrimFloat.of_uint63 (Uint63.of_Z (- z))
  else PrimFloat.of_uint63 (Uint63.of_Z z).

(** A binary64 value, as [SpecFloat] describes it, that is [>= 0]. *)
Definition SF_nonneg (x : spec_float) : bool :=
  match x with
  | S754_zero _ => true
  | S754_infinity s | S754_finite s _ _ => negb s
  | S754_nan => false
  end.

(** Python's [range(0, n)]. *)
Definition py_range (n : Z) : list Z :=
  List.map Z.of_nat (seq 0 (Z.to_nat n)).

(** Elementwise binary operation on two 1-d arrays of the same shape. *)
Definition arr_map2 (f : float -> float -> float) (xs ys : list float) : list float :=
  List.map (fun p => f (fst p) (snd p)) (combine xs ys).

(** ** The numpy interface *)

Class NumPy : Type := {
  (** [np.sum] of a 1-d float64 array. *)
  np_sum : list float -> float;
  (** [x ** 2] on a [numpy.float64] scalar. *)
  float64_pow2 : float -> float;
  (** [np.linspace(start, stop, num)]. *)
  np_linspace : float -> float -> Z -> result (list float);
  (** State of the process-global random generator behind [np.random]. *)
  RandomState : Type;
  (** [np.random.uniform(low, high, size)]. *)
  np_random_uniform :
    float -> float -> Z -> RandomState -> result (list float) * RandomState;
  (** Shapes: both routines return [num] (resp. [size]) values, and
      [np.linspace] accepts every [num] but the negative ones. *)
  np_linspace_length : forall start stop num xs,
    np_linspace start stop num = Ok xs -> Z.of_nat (length xs) = num;
  np_linspace_ok : forall start stop num,
    is_ok (np_linspace start stop num) = (0 <=? num)%Z;
  np_random_uniform_length : forall low high size rs us rs',
    np_random_uniform low high size rs = (Ok us, rs') ->
    Z.of_nat (length us) = size
}.

(** ** Data model *)

(** One row of the DataFrame built by [gen_fake_data]: columns ['M'],
    ['sigma_M'], ['V'], ['sigma_V']. *)
Record Measurement : Type := mkMeasurement {
  M : float;
  sigma_M : float;
  V : float;
  sigma_V : float
}.

(** A DataFrame with those four float64 columns: pandas keeps the columns
    the same length, so it is a list of rows; a column is read with [map]. *)
Definition DataFrame : Type := list Measurement.

(** The dictionary stored in [self.fit_results]. *)
Record FitResults : Type := mkFitResults {
  fit_M0 : float;
  fit_V0 : float;
  fit_rho : float;
  fit_a : float;
  fit_sigma_a : float;
  fit_b : float;
  fit_sigma_b : float;
  fit_y_pred : list float;
  fit_sigma_y : float
}.

(** The attributes of a [WaterDensity] object. *)
Record WaterDensity : Type := mkWaterDensity {
  M0 : float;
  V0 : float;
  rho : float;
  df : option DataFrame;
  fit_results : option FitResults
}.

(** [WaterDensity.__init__] *)
Definition init (M0 V0 rho : float) : WaterDensity :=
  mkWaterDensity M0 V0 rho None None.

Definition set_df (self : WaterDensity) (d : DataFrame) : WaterDensity :=
  mkWaterDensity (M0 self) (V0 self) (rho self) (Some d) (fit_results self).

Definition set_fit_results (self : WaterDensity) (r : FitResults) : WaterDensity :=
  mkWaterDensity (M0 self) (V0 self) (rho self) (df self) (Some r).

(** [pd.DataFrame({'M': ..., 'sigma_M': ..., 'V': ..., 'sigma_V': ...})] from
    four columns of one length. *)
Fixpoint make_df (Ms sMs Vs sVs : list float) : DataFrame :=
  match Ms, sMs, Vs, sVs with
  | m :: Ms', sm :: sMs', v :: Vs', sv :: sVs' =>
      mkMeasurement m sm v sv :: make_df Ms' sMs' Vs' sVs'
  | _, _, _, _ => []
  end.

Section Methods.

Context {numpy : NumPy}.

(** ** [gen_fake_data] *)

Definition gen_fake_data (self : WaterDensity)
    (n_points : Z) (V_min V_max err_M err_V noise : float) (rs : RandomState)
  : result DataFrame * WaterDensity * RandomState :=
  match np_linspace V_min V_max n_points with
  | Raise e => (Raise e, self, rs)
  | Ok V_values =>
      let nominal :=
        List.map (fun v => rho self * v + (M0 self - rho self * V0 self)) V_values in
      match np_random_uniform (- noise) noise n_points rs with
      | (Raise e, rs') => (Raise e, self, rs')
      | (Ok u, rs') =>
          let M_values := arr_map2 PrimFloat.add nominal u in
          let d :=
            make_df M_values
                    (List.map (fun m => m * err_M) M_values)
                    V_values
                    (List.map (fun v => v * err_V) V_values) in
          (Ok d, set_df self d, rs')
      end
  end.

(** ** [calculate_fit] *)

Definition no_data_msg : string :=
  "No data available. Please run gen_fake_data() first.".

Definition calculate_fit (self : WaterDensity) : result FitResults * WaterDensity :=
  match df self with
  | None => (Raise (ValueError no_data_msg), self)
  | Some d =>
      let V_values := List.map V d in
      let M_values := List.map M d in
      let N := Z.of_nat (length V_values) in
      let sum_x := np_sum V_values in
      let sum_y := np_sum M_values in
      let sum_x2 := np_sum (List.map (fun v => v * v) V_values) in
      let sum_xy := np_sum (arr_map2 PrimFloat.mul V_values M_values) in
      let D := float_of_int N * sum_x2 - float64_pow2 sum_x in
      let a := (float_of_int N * sum_xy - sum_x * sum_y) / D in
      let b := (sum_y - a * sum_x) / float_of_int N in
      let y_pred := List.map (fun v => a * v + b) V_values in
      let sigma_y :=
        PrimFloat.sqrt
          (np_sum (List.map (fun r => r * r) (arr_map2 PrimFloat.sub M_values y_pred))
           / float_of_int (N - 2)) in
      let Sxx := sum_x2 - float64_pow2 sum_x / float_of_int N in
      let sigma_a := sigma_y / PrimFloat.sqrt Sxx in
      let x_bar := sum_x / float_of_int N in
      (* [1 / N] divides two Python ints *)
      if (N =? 0)%Z then (Raise ZeroDivisionError, self)
      else
        let sigma_b :=
          sigma_y * PrimFloat.sqrt (1 / float_of_int N + float64_pow2 x_bar / Sxx) in
        let r :=
          mkFitResults (M0 self) (V0 self) (rho self)
                       a sigma_a b sigma_b y_pred sigma_y in
        (Ok r, set_fit_results self r)
  end.

End Methods.

(** ** The fit in the words of the specification

    The quantities of the least-squares design, written over the
    Measurements of a Dataset: [x] is the volume column, [y] the mass
    column, a sum over the Dataset is [np.sum]. *)
Section Specification.

Context {numpy : NumPy}.

Definition sum_over (f : Measurement -> float) (d : DataFrame) : float :=
  np_sum (List.map f d).

Definition sq (x : float) : float := x * x.

Definition spec_N (d : DataFrame) : float := float_of_int (Z.of_nat (length d)).
Definition spec_Sx (d : DataFrame) : float := sum_over V d.
Definition spec_Sy (d : DataFrame) : float := sum_over M d.
Definition spec_Sxx (d : DataFrame) : float := sum_over (fun m => sq (V m)) d.
Definition spec_Sxy (d : DataFrame) : float := sum_over (fun m => V m * M m) d.

Definition spec_D (d : DataFrame) : float :=
  spec_N d * spec_Sxx d - float64_pow2 (spec_Sx d).

Definition spec_a (d : DataFrame) : float :=
  (spec_N d * spec_Sxy d - spec_Sx d * spec_Sy d) / spec_D d.

Definition spec_b (d : DataFrame) : float :=
  (spec_Sy d - spec_a d * spec_Sx d) / spec_N d.

Definition spec_predict (d : DataFrame) (m : Measurement) : float :=
  spec_a d * V m + spec_b d.

Definition spec_sigma_y_resid (d : DataFrame) : float :=
  PrimFloat.sqrt
    (sum_over (fun m => sq (M m - spec_predict d m)) d
     / float_of_int (Z.of_nat (length d) - 2)).

Definition spec_Sxx_centered (d : DataFrame) : float :=
  spec_Sxx d - float64_pow2 (spec_Sx d) / spec_N d.

Definition spec_sigma_a (d : DataFrame) : float :=
  spec_sigma_y_resid d / PrimFloat.sqrt (spec_Sxx_centered d).

Definition spec_x_bar (d : DataFrame) : float := spec_Sx d / spec_N d.

Definition spec_sigma_b (d : DataFrame) : float :=
  spec_sigma_y_resid d
  * PrimFloat.sqrt (1 / spec_N d + float64_pow2 (spec_x_bar d) / spec_Sxx_centered d).

(** The FitResult of the specification, with the reference constants of the
    object echoed. *)
Definition spec_fit (self : WaterDensity) (d : DataFrame) : FitResults :=
  mkFitResults (M0 self) (V0 self) (rho self)
               (spec_a d) (spec_sigma_a d) (spec_b d) (spec_sigma_b d)
               (List.map (spec_predict d) d) (spec_sigma_y_resid d).

(** The part of a FitResult that is computed (everything but the echoed
    constants). *)
Definition fit_values (r : FitResults)
  : float * float * float * float * list float * float :=
  (fit_a r, fit_sigma_a r, fit_b r, fit_sigma_b r, fit_y_pred r, fit_sigma_y r).

End Specification.

(** ** What the generator is asked to deliver

    Order and range of a column, as the comparisons of binary64 decide
    them (a NaN fails every comparison). *)

Fixpoint nondecreasing (xs : list float) : bool :=
  match xs with
  | x :: (y :: _) as rest => (x <=? y) && nondecreasing rest
  | _ => true
  end.

Definition within (lo hi x : float) : bool := (lo <=? x) && (x <=? hi).

(** The documented contract of [np.linspace(lo, hi, num)] with the end
    point included: the values start at [lo], end at [hi], stay in
    between and do not decrease. *)
Definition linspace_contract (lo hi : float) (xs : list float) : bool :=
  match xs with
  | [] => true
  | x :: _ => (x =? lo) && (last xs x =? hi)
  end
  && forallb (within lo hi) xs
  && nondecreasing xs.

(** The row [gen_fake_data] builds for the volume [v] and the draw [u],
    and the DataFrame of all of them. *)
Definition fake_row (self : WaterDensity) (err_M err_V v u : float) : Measurement :=
  let m := rho self * v + (M0 self - rho self * V0 self) + u in
  mkMeasurement m (m * err_M) v (v * err_V).

Definition fake_df (self : WaterDensity) (err_M err_V : float)
    (xs us : list float) : DataFrame :=
  List.map (fun p => fake_row self err_M err_V (fst p) (snd p)) (combine xs us).

(** ** A reference numpy

    The routines as numpy computes them on short arrays, to evaluate the
    methods on concrete data: [np.sum] adds fewer than eight values from
    left to right, starting from zero; squaring a scalar is one
    multiplication; [np.linspace] scales [arange(0, num)] by the step, adds
    [start] and overwrites the last value with [stop]; [uniform] maps each
    unit-interval draw [u] of the generator to [low + (high - low) * u] and
    refuses a range that is not finite. *)
Module Reference.

Definition sum (xs : list float) : float :=
  fold_left PrimFloat.add xs 0.

Definition pow2 (x : float) : float := x * x.

Fixpoint set_last (xs : list float) (v : float) : list float :=
  match xs with
  | [] => []
  | [_] => [v]
  | x :: xs' => x :: set_last xs' v
  end.

Definition linspace (start stop : float) (num : Z) : result (list float) :=
  if (num <? 0)%Z then
    Raise (ValueError "Number of samples must be non-negative.")
  else
    let div := (num - 1)%Z in
    let delta := stop - start in
    let y := List.map float_of_int (py_range num) in
    let y :=
      if (0 <? div)%Z then
        let step := delta / float_of_int div in
        if step =? 0 then
          List.map (fun i => i / float_of_int div * delta) y
        else List.map (fun i => i * step) y
      else List.map (fun i => i * delta) y in
    let y := List.map (fun v => v + start) y in
    Ok (if (1 <? num)%Z then set_last y stop else y).

(** The generator's state is the sequence of unit-interval doubles it is
    going to produce. *)
Definition random_state : Type := nat -> float.

Definition random_uniform (low high : float) (size : Z) (rs : random_state)
  : result (list float) * random_state :=
  let range := high - low in
  if negb (is_finite range) then (Raise OverflowError, rs)
  else if (size <? 0)%Z then
    (Raise (ValueError "negative dimensions are not allowed"), rs)
  else
    let n := Z.to_nat size in
    (Ok (List.map (fun i => low + range * rs i) (seq 0 n)),
     fun i => rs (i + n)%nat).

Lemma set_last_length (xs : list float) (v : float) :
  length (set_last xs v) = length xs.
Proof.
  induction xs as [|x [|x' xs'] IH]; simpl in *; auto.
Qed.

Lemma linspace_length (start stop : float) (num : Z) (xs : list float) :
  linspace start stop num = Ok xs -> Z.of_nat (length xs) = num.
Proof.
  unfold linspace.
  destruct (num <? 0)%Z eqn:Hneg; [discriminate|].
  apply Z.ltb_ge in Hneg.
  intros H. injection H as <-.
  assert (Hlen : forall f : Z -> float,
             Z.of_nat (length (List.map f (py_range num))) = num).
  { intros f. unfold py_range.
    rewrite !length_map, length_seq. lia. }
  cbv zeta.
  destruct (1 <? num)%Z; [rewrite set_last_length|];
    rewrite length_map;
    (destruct (0 <? num - 1)%Z; [destruct (_ =? 0)|]);
    rewrite length_map; apply (Hlen float_of_int).
Qed.

Lemma linspace_ok (start stop : float) (num : Z) :
  is_ok (linspace start stop num) = (0 <=? num)%Z.
Proof.
  unfold linspace. rewrite Z.leb_antisym.
  now destruct (num <? 0)%Z.
Qed.

Lemma random_uniform_length (low high : float) (size : Z)
    (rs : random_state) (us : list float) (rs' : random_state) :
  random_uniform low high size rs = (Ok us, rs') -> Z.of_nat (length us) = size.
Proof.
  unfold random_uniform.
  destruct (negb _); [discriminate|].
  destruct (size <? 0)%Z eqn:Hneg; [discriminate|].
  apply Z.ltb_ge in Hneg.
  intros H. injection H as <- _.
  rewrite length_map, length_seq. lia.
Qed.

#[export] Instance numpy : NumPy := {
  np_sum := sum;
  float64_pow2 := pow2;
  np_linspace := linspace;
  RandomState := random_state;
  np_random_uniform := random_uniform;
  np_linspace_length := linspace_length;
  np_linspace_ok := linspace_ok;
  np_random_uniform_length := random_uniform_length
}.

End Reference.

(** ** Concrete data *)

(** A generator state whose draws alternate between the first and the
    third quarter of the unit interval. *)
Definition quarter_draws : Reference.random_state :=
  fun i => if Nat.even i then 0.25 else 0.75.

(** Three points on the line [y = x + 300], and their fit. *)
Definition line_data : DataFrame :=
  [ mkMeasurement 400 10 100 10;
    mkMeasurement 450 11.25 150 15;
    mkMeasurement 500 12.5 200 20 ].

Definition line_fit : FitResults :=
  mkFitResults 300 100 1 1 0 300 0 [400; 450; 500] 0.

(** Four points scattered around the same line, by 3 and by 4, and their
    fit. *)
Definition scattered_data : DataFrame :=
  [ mkMeasurement 304 152 7 1.75;
    mkMeasurement 310 155 7 1.75;
    mkMeasurement 319 159.5 23 5.75;
    mkMeasurement 327 163.5 23 5.75 ].

Definition scattered_fit : FitResults :=
  mkFitResults 300 100 1 1 0.3125 300 5.3125 [307; 307; 323; 323] 5.

(** Two points only: the residual sum is divided by [N - 2 = 0]. *)
Definition two_points : DataFrame :=
  [ mkMeasurement 400 10 100 10;
    mkMeasurement 500 12.5 200 20 ].

Definition two_points_fit : FitResults :=
  mkFitResults 300 100 1 1 nan 300 nan [400; 500] nan.

(** Three points measured at one and the same volume: [D = 0]. *)
Definition same_volume : DataFrame :=
  [ mkMeasurement 400 10 100 10;
    mkMeasurement 450 11.25 100 10;
    mkMeasurement 500 12.5 100 10 ].

Definition same_volume_fit : FitResults :=
  mkFitResults 300 100 1 nan nan nan nan [nan; nan; nan] nan.

(** An object as [WaterDensity()] builds it, holding the given data and no
    fit yet. *)
Definition holding (d : DataFrame) : WaterDensity :=
  mkWaterDensity 300 100 1 (Some d) None.

(** [gen_fake_data(3, 100, 200, 0.5, 0.25, 4)] with the draws above. *)
Definition generated_valid : DataFrame :=
  [ mkMeasurement 298 149 100 25;
    mkMeasurement 352 176 150 37.5;
    mkMeasurement 398 199 200 50 ].

(** [gen_fake_data(3, -2, -1, 0.5, 0.5, 4)]: volumes below zero. *)
Definition generated_negative : DataFrame :=
  [ mkMeasurement 196 98 (-2) (-1);
    mkMeasurement 200.5 100.25 (-1.5) (-0.75);
    mkMeasurement 197 98.5 (-1) (-0.5) ].

(** [gen_fake_data(2, 200, 110, -0.5, -0.5, 4)]: too few points, an
    inverted range and negative error fractions. *)
Definition generated_unchecked : DataFrame :=
  [ mkMeasurement 398 (-199) 200 (-100);
    mkMeasurement 312 (-156) 110 (-55) ].

(** ** Presenter: the table, its export and the plot

    [format_table], [export_latex_table] and [plot_regression] read the
    object and hand strings and arrays to pandas, to the file system and
    to matplotlib.  The model stops where those take over: a formatted
    table is the list of its rows, the export is the list of effects it
    asks for, and the plot is the set of arrays passed to matplotlib. *)

(** One row of the table of [format_table]: the columns
    ["$(M_i \pm \delta M_i) \ g$"], ["$\frac{\delta M_i}{M_i}$"],
    ["$(V_i \pm \delta V_i) \ ml$"] and ["$\frac{\delta V_i}{V_i}$"]. *)
Record TableRow : Type := mkTableRow {
  M_pm : string;
  M_frac : string;
  V_pm : string;
  V_frac : string
}.

Definition Table : Type := list TableRow.

Definition table_columns : list string :=
  [ "$(M_i \pm \delta M_i) \ g$";
    "$\frac{\delta M_i}{M_i}$";
    "$(V_i \pm \delta V_i) \ ml$";
    "$\frac{\delta V_i}{V_i}$" ]%string.

(** What the presenter takes from Python, numpy and pandas. *)
Class PresenterLibs : Type := {
  (** [f"{x:.<digits>f}"]: a float in fixed notation. *)
  format_f : nat -> float -> string;
  (** [np.argsort] of a 1-d float64 array: the indices that sort it. *)
  np_argsort : list float -> list nat;
  (** [table.to_latex(escape=False, index=False)]. *)
  to_latex : Table -> string;
  (** The indices of [np.argsort] are those of the array, each once. *)
  np_argsort_permutation : forall xs,
    Permutation (np_argsort xs) (seq 0 (length xs))
}.

(** Sequencing of calls that may raise. *)
Definition bind {A B : Type} (r : result A) (k : A -> result B) : result B :=
  match r with
  | Ok x => k x
  | Raise e => Raise e
  end.

Notation "x <- c ;; k" := (bind c (fun x => k))
  (at level 61, c at next level, right associativity).

(** A list comprehension whose element expression may raise: the first
    exception ends it. *)
Fixpoint comprehension {A B : Type} (f : A -> result B) (l : list A)
  : result (list B) :=
  match l with
  | [] => Ok []
  | x :: l' =>
      y <- f x ;;
      ys <- comprehension f l' ;;
      Ok (y :: ys)
  end.

(** [x / y] on two Python floats, which is what iterating over a pandas
    column yields: a zero divisor raises. *)
Definition py_float_div (x y : float) : result float :=
  if y =? 0 then Raise ZeroDivisionError else Ok (x / y).

(** [pd.DataFrame] from the four columns of strings. *)
Fixpoint make_table (c1 c2 c3 c4 : list string) : Table :=
  match c1, c2, c3, c4 with
  | a :: c1', b :: c2', c :: c3', d :: c4' =>
      mkTableRow a b c d :: make_table c1' c2' c3' c4'
  | _, _, _, _ => []
  end.

(** What [print] and [open(...).write] ask of the outside world. *)
Inductive effect : Type :=
| Print (text : string)
| WriteFile (path text : string).

(** Truth value of [filename], a [str] or [None]. *)
Definition truthy (filename : option string) : bool :=
  match filename with
  | None => false
  | Some path => negb (String.eqb path "")
  end.

(** The arrays and the label [plot_regression] passes to matplotlib:
    [errorbar(V, M, xerr, yerr)], [plot(V_sorted, y_pred_sorted, label)]
    and [fill_between(V_sorted, y_lower, y_upper)]. *)
Record Figure : Type := mkFigure {
  errorbar_x : list float;
  errorbar_y : list float;
  errorbar_xerr : list float;
  errorbar_yerr : list float;
  line_x : list float;
  line_y : list float;
  line_label : string;
  band_lower : list float;
  band_upper : list float
}.

(** How [plot_regression] ends: the figure is handed to matplotlib, or an
    exception of the modelled kinds is raised, or an array is indexed
    past its end. *)
Inductive plot_result : Type :=
| Drawn (fig : Figure)
| PlotRaise (e : exn)
| IndexError.

(** [arr[idx]] for an array of indices: every index must be in bounds. *)
Fixpoint take (arr : list float) (idx : list nat) : option (list float) :=
  match idx with
  | [] => Some []
  | i :: idx' =>
      match nth_error arr i, take arr idx' with
      | Some x, Some xs => Some (x :: xs)
      | _, _ => None
      end
  end.

Section PresenterMethods.

Context {numpy : NumPy} {libs : PresenterLibs}.

(** ** [format_table] *)

Definition no_table_msg : string :=
  "No data to format. Please run gen_fake_data() first.".

Definition pm (value sigma : float) : string :=
  (format_f 3 value ++ " \pm " ++ format_f 3 sigma)%string.

Definition frac (value sigma : float) : result string :=
  q <- py_float_div sigma value ;;
  Ok (format_f 3 q).

Definition format_table (self : WaterDensity) : result Table :=
  match df self with
  | None => Raise (ValueError no_table_msg)
  | Some d =>
      let M_sigma := combine (List.map M d) (List.map sigma_M d) in
      let V_sigma := combine (List.map V d) (List.map sigma_V d) in
      let c1 := List.map (fun p => pm (fst p) (snd p)) M_sigma in
      c2 <- comprehension (fun p => frac (fst p) (snd p)) M_sigma ;;
      let c3 := List.map (fun p => pm (fst p) (snd p)) V_sigma in
      c4 <- comprehension (fun p => frac (fst p) (snd p)) V_sigma ;;
      Ok (make_table c1 c2 c3 c4)
  end.

(** ** [export_latex_table] *)

Definition export_latex_table (self : WaterDensity) (filename : option string)
  : result string * list effect :=
  match format_table self with
  | Raise e => (Raise e, [])
  | Ok table =>
      let latex_code := to_latex table in
      match filename with
      | Some path =>
          if truthy filename then
            (Ok latex_code,
             [WriteFile path latex_code;
              Print ("LaTeX table exported to " ++ path)%string])
          else (Ok latex_code, [Print latex_code])
      | None => (Ok latex_code, [Print latex_code])
      end
  end.

(** ** [plot_regression] *)

Definition no_plot_msg : string :=
  "You must generate data and calculate fit first.".

(** Half the width of the uncertainty band at the volume [v]. *)
Definition band_half_width (sigma_a sigma_b v : float) : float :=
  PrimFloat.sqrt ((v * sigma_a) * (v * sigma_a) + float64_pow2 sigma_b).

Definition best_fit_label (r : FitResults) : string :=
  ("Best Fit: y = (" ++ format_f 4 (fit_a r) ++ " \pm "
   ++ format_f 4 (fit_sigma_a r) ++ ")x + (" ++ format_f 2 (fit_b r)
   ++ " \pm " ++ format_f 2 (fit_sigma_b r) ++ ")")%string.

Definition plot_regression (self : WaterDensity) : plot_result :=
  match df self, fit_results self with
  | Some d, Some r =>
      let V_values := List.map V d in
      let M_values := List.map M d in
      let V_err := List.map sigma_V d in
      let M_err := List.map sigma_M d in
      let y_pred := fit_y_pred r in
      let sort_idx := np_argsort V_values in
      match take V_values sort_idx with
      | None => IndexError
      | Some V_sorted =>
          match take y_pred sort_idx with
          | None => IndexError
          | Some y_pred_sorted =>
              let uncertainty :=
                List.map (band_half_width (fit_sigma_a r) (fit_sigma_b r))
                         V_sorted in
              let y_upper := arr_map2 PrimFloat.add y_pred_sorted uncertainty in
              let y_lower := arr_map2 PrimFloat.sub y_pred_sorted uncertainty in
              Drawn (mkFigure V_values M_values V_err M_err
                              V_sorted y_pred_sorted (best_fit_label r)
                              y_lower y_upper)
          end
      end
  | _, _ => PlotRaise (ValueError no_plot_msg)
  end.

End PresenterMethods.

(** The row of the table for one Measurement. *)
Definition format_row {libs : PresenterLibs} (m : Measurement) : TableRow :=
  mkTableRow (pm (M m) (sigma_M m)) (format_f 3 (sigma_M m / M m))
             (pm (V m) (sigma_V m)) (format_f 3 (sigma_V m / V m)).

(** A Measurement whose mass or volume is a zero. *)
Definition has_zero (m : Measurement) : bool := (M m =? 0) || (V m =? 0).

(** A binary64 value that is NaN or [>= 0]. *)
Definition nonneg_or_nan (x : float) : bool := is_nan x || (0 <=? x).

(** The same on the description of the value: NaN, a zero, or the sign
    bit clear; and the stricter: NaN or the sign bit clear. *)
Definition SF_unsigned (x : spec_float) : bool :=
  match x with
  | S754_nan | S754_zero _ => true
  | S754_infinity s | S754_finite s _ _ => negb s
  end.

Definition SF_plus (x : spec_float) : bool :=
  match x with
  | S754_nan => true
  | S754_zero s | S754_infinity s | S754_finite s _ _ => negb s
  end.

(** The files written and the lines printed among the effects. *)
Definition written (effects : list effect) : list (string * string) :=
  flat_map (fun e => match e with
                     | WriteFile path text => [(path, text)]
                     | Print _ => []
                     end) effects.

Definition printed (effects : list effect) : list string :=
  flat_map (fun e => match e with
                     | Print text => [text]
                     | WriteFile _ _ => []
                     end) effects.

(** ** Concrete data for the presenter *)

(** The three points of the line with every uncertainty set to 1. *)
Definition line_data_flat : DataFrame :=
  [ mkMeasurement 400 1 100 1;
    mkMeasurement 450 1 150 1;
    mkMeasurement 500 1 200 1 ].

(** The table of [line_data]. *)
Definition line_table : Table :=
  [ mkTableRow "400.000 \pm 10.000" "0.025" "100.000 \pm 10.000" "0.100";
    mkTableRow "450.000 \pm 11.250" "0.025" "150.000 \pm 15.000" "0.100";
    mkTableRow "500.000 \pm 12.500" "0.025" "200.000 \pm 20.000" "0.100" ]%string.

(** Two Measurements stored with the larger volume first, a fit with
    [sigma_a = 0.5] and [sigma_b = 2] held beside them, and the figure
    drawn from the two: the band is 2.5 wide at the volume 3 and 4.25 at
    the volume 7.5. *)
Definition two_volumes : DataFrame :=
  [ mkMeasurement 10 1 7.5 0.5;
    mkMeasurement 5 0.5 3 0.25 ].

Definition rough_fit : FitResults :=
  mkFitResults 300 100 1 1 0.5 2 2 [9.5; 5] 1.

Definition two_volumes_plotted : WaterDensity :=
  mkWaterDensity 300 100 1 (Some two_volumes) (Some rough_fit).

Definition two_volumes_figure : Figure :=
  mkFigure [7.5; 3] [10; 5] [0.5; 0.25] [1; 0.5]
           [3; 7.5] [5; 9.5]
           "Best Fit: y = (1.0000 \pm 0.5000)x + (2.00 \pm 2.00)"
           [2.5; 5.25] [7.5; 13.75].

(** [gen_fake_data(2, 100, 200, 0.5, 0.25, 0)] and
    [gen_fake_data(3, 100, 200, 0.5, 0.25, 0)]: no noise, the points lie
    on the line [y = x + 200]. *)
Definition generated_two : DataFrame :=
  [ mkMeasurement 300 150 100 25;
    mkMeasurement 400 200 200 50 ].

Definition generated_three : DataFrame :=
  [ mkMeasurement 300 150 100 25;
    mkMeasurement 350 175 150 37.5;
    mkMeasurement 400 200 200 50 ].

(** ** Facts of binary64 arithmetic

    Read off the specification of the primitive operations ([SpecFloat]). *)

Lemma zero_of_eqb (y : float) :
  (y =? 0) = true -> exists s, Prim2SF y = S754_zero s.
Proof.
  rewrite eqb_spec. unfold SFeqb.
  change (Prim2SF 0) with (S754_zero false).
  destruct (Prim2SF y) as [s|s| |s m e]; simpl; try discriminate.
  - intros _. now exists s.
  - destruct s; discriminate.
  - destruct s; discriminate.
Qed.

Lemma is_finite_spec (r : float) :
  is_finite r =
  match Prim2SF r with
  | S754_nan | S754_infinity _ => false
  | _ => true
  end.
Proof.
  unfold is_finite, is_nan, is_infinity.
  rewrite !eqb_spec, abs_spec.
  change (Prim2SF infinity) with (S754_infinity false).
  destruct (Prim2SF r) as [s|s| |s m e]; simpl; try reflexivity.
  all: unfold SFeqb; simpl; destruct s; simpl;
    rewrite ?Z.compare_refl, ?Pos.compare_cont_refl; reflexivity.
Qed.

(** Dividing by a zero never gives a finite number: the quotient is NaN
    or an infinity. *)
Lemma div_by_zero_not_finite (x y : float) :
  (y =? 0) = true -> is_finite (x / y) = false.
Proof.
  intros Hy. destruct (zero_of_eqb y Hy) as [s Hs].
  rewrite is_finite_spec, div_spec, Hs.
  destruct (Prim2SF x); reflexivity.
Qed.

(** Nor does its square root: the residual standard error over [N - 2 = 0]. *)
Lemma sqrt_div_by_zero_not_finite (x y : float) :
  (y =? 0) = true -> is_finite (PrimFloat.sqrt (x / y)) = false.
Proof.
  intros Hy. destruct (zero_of_eqb y Hy) as [s Hs].
  rewrite is_finite_spec, sqrt_spec, div_spec, Hs.
  destruct (Prim2SF x) as [sx|sx| |sx mx ex]; simpl; try reflexivity;
    destruct (xorb sx s); reflexivity.
Qed.

Lemma binary_round_aux_sign (sx : bool) (mx ex : Z) (lx : location) :
  match binary_round_aux prec emax sx mx ex lx with
  | S754_zero s | S754_infinity s | S754_finite s _ _ => s = sx
  | S754_nan => True
  end.
Proof.
  unfold binary_round_aux.
  destruct (shr_fexp _ _ _ _ _) as [mrs' e'].
  destruct (shr_fexp _ _ _ _ _) as [mrs'' e''].
  destruct (shr_m mrs''); auto.
  destruct (Z.leb _ _); reflexivity.
Qed.

Lemma leb_zero_spec (x : float) : (0 <=? x) = SF_nonneg (Prim2SF x).
Proof.
  rewrite leb_spec. change (Prim2SF 0) with (S754_zero false).
  destruct (Prim2SF x) as [s|s| |s m e]; simpl; try reflexivity;
    destruct s; reflexivity.
Qed.

(** The product of two non-negative numbers is non-negative, unless it is
    NaN (zero times infinity). *)
Lemma mul_nonneg (x y : float) :
  (0 <=? x) = true -> (0 <=? y) = true -> is_nan (x * y) = false ->
  (0 <=? x * y) = true.
Proof.
  rewrite !leb_zero_spec. unfold is_nan. rewrite eqb_spec, mul_spec.
  unfold SF64mul.
  destruct (Prim2SF x) as [sx|sx| |sx mx ex],
           (Prim2SF y) as [sy|sy| |sy my ey];
    simpl; try discriminate; try reflexivity;
    try (destruct sx; try discriminate; destruct sy; try discriminate;
         reflexivity).
  destruct sx; [discriminate|]. destruct sy; [discriminate|]. intros _ _.
  pose proof (binary_round_aux_sign (xorb false false)
                (Z.pos (mx * my)) (ex + ey) loc_Exact) as H.
  destruct (binary_round_aux _ _ _ _ _ _) as [s|s| |s m e];
    simpl in *; subst; try reflexivity.
  discriminate.
Qed.

(** ** Lists and arrays *)

Lemma arr_map2_map {A : Type} (f : float -> float -> float)
    (g h : A -> float) (l : list A) :
  arr_map2 f (List.map g l) (List.map h l) = List.map (fun x => f (g x) (h x)) l.
Proof.
  unfold arr_map2.
  induction l as [|x l IH]; simpl; [reflexivity|].
  now rewrite IH.
Qed.

(** ** [calculate_fit] against the specification *)

Section FitRefinement.

Context {numpy : NumPy}.

(** What [calculate_fit] does, case by case: without data it raises
    [ValueError]; on an empty DataFrame [1 / N] raises
    [ZeroDivisionError]; otherwise it returns the FitResult of the
    specification and stores it in [fit_results]. *)
Lemma calculate_fit_cases (self : WaterDensity) :
  calculate_fit self =
  match df self with
  | None => (Raise (ValueError no_data_msg), self)
  | Some [] => (Raise ZeroDivisionError, self)
  | Some d => (Ok (spec_fit self d), set_fit_results self (spec_fit self d))
  end.
Proof.
  unfold calculate_fit.
  destruct (df self) as [d|]; [|reflexivity].
  cbv zeta. rewrite length_map.
  destruct d as [|m d']; [reflexivity|].
  set (d := m :: d').
  replace (Z.of_nat (length d) =? 0)%Z with false
    by (symmetry; apply Z.eqb_neq; subst d; simpl length; lia).
  rewrite !map_map, !arr_map2_map.
  rewrite ?map_map.
  reflexivity.
Qed.

Lemma calculate_fit_nonempty (self : WaterDensity) (d : DataFrame) :
  df self = Some d -> d <> [] ->
  calculate_fit self = (Ok (spec_fit self d), set_fit_results self (spec_fit self d)).
Proof.
  intros Hdf Hne. rewrite calculate_fit_cases, Hdf.
  destruct d; [contradiction|reflexivity].
Qed.

Lemma calculate_fit_ok_inv (self self' : WaterDensity) (r : FitResults) :
  calculate_fit self = (Ok r, self') ->
  exists d, df self = Some d /\ d <> [] /\ r = spec_fit self d
            /\ self' = set_fit_results self r.
Proof.
  rewrite calculate_fit_cases.
  destruct (df self) as [[|m d]|] eqn:Hdf; try discriminate.
  intros [= <- <-].
  exists (m :: d). repeat split; congruence.
Qed.

End FitRefinement.

(** ** LinearFitter: the claims about [calculate_fit] *)

Section LinearFitter.

Context {numpy : NumPy}.

(** C1. Whenever the fit of a Dataset of N points succeeds, the slope is
    [a = (N*Sxy - Sx*Sy) / D] with [D = N*Sxx - Sx^2], the intercept is
    [b = (Sy - a*Sx) / N], and [y_pred] holds [a*x[i] + b] for every
    Measurement [i], in input order; so [y_pred] is as long as the
    Dataset. *)
Theorem calculate_fit_line (self self' : WaterDensity) (d : DataFrame)
    (r : FitResults) :
  df self = Some d ->
  calculate_fit self = (Ok r, self') ->
  fit_a r = (spec_N d * spec_Sxy d - spec_Sx d * spec_Sy d)
            / (spec_N d * spec_Sxx d - float64_pow2 (spec_Sx d))
  /\ fit_b r = (spec_Sy d - fit_a r * spec_Sx d) / spec_N d
  /\ length (fit_y_pred r) = length d
  /\ (forall i m, nth_error d i = Some m ->
                  nth_error (fit_y_pred r) i = Some (fit_a r * V m + fit_b r)).
Proof.
  intros Hdf Hfit.
  apply calculate_fit_ok_inv in Hfit as (d' & Hdf' & _ & -> & _).
  assert (d' = d) as -> by congruence.
  cbn [spec_fit fit_a fit_b fit_y_pred].
  repeat split.
  - apply length_map.
  - intros i m Hi. now rewrite nth_error_map, Hi.
Qed.

(** C2. Whenever the fit of a Dataset of N points succeeds, the residual
    standard error is [sqrt (sum (y[i] - y_pred[i])^2 / (N - 2))], the
    slope uncertainty is [sigma_y_resid / sqrt Sxx_centered] with
    [Sxx_centered = Sxx - Sx^2 / N], and the intercept uncertainty is
    [sigma_y_resid * sqrt (1/N + x_bar^2 / Sxx_centered)] with
    [x_bar = Sx / N]. *)
Theorem calculate_fit_uncertainties (self self' : WaterDensity)
    (d : DataFrame) (r : FitResults) :
  df self = Some d ->
  calculate_fit self = (Ok r, self') ->
  let N := float_of_int (Z.of_nat (length d)) in
  let Sxx_centered := spec_Sxx d - float64_pow2 (spec_Sx d) / N in
  let x_bar := spec_Sx d / N in
  fit_sigma_y r =
    PrimFloat.sqrt
      (sum_over (fun m => sq (M m - (fit_a r * V m + fit_b r))) d
       / float_of_int (Z.of_nat (length d) - 2))
  /\ fit_sigma_a r = fit_sigma_y r / PrimFloat.sqrt Sxx_centered
  /\ fit_sigma_b r =
       fit_sigma_y r * PrimFloat.sqrt (1 / N + float64_pow2 x_bar / Sxx_centered).
Proof.
  intros Hdf Hfit.
  destruct (calculate_fit_ok_inv _ _ _ Hfit) as (d' & Hdf' & _ & Hr & _).
  rewrite Hdf in Hdf'. injection Hdf' as <-.
  subst r. cbv zeta. repeat split.
Qed.

(** C3, as amended. A Dataset with fewer than 3 points is not refused as
    insufficient: with 1 or 2 points the fit returns the FitResult of the
    usual formulas, and with no point at all it fails with the
    [ZeroDivisionError] of [1 / N].  With 2 points the residual standard
    error, a square root of a quotient by [N - 2 = 0], is NaN or
    infinite. *)
Theorem calculate_fit_few_points (self : WaterDensity) (d : DataFrame) :
  df self = Some d ->
  (length d < 3)%nat ->
  fst (calculate_fit self) =
  match d with
  | [] => Raise ZeroDivisionError
  | _ :: _ => Ok (spec_fit self d)
  end
  /\ (length d = 2%nat -> is_finite (spec_sigma_y_resid d) = false).
Proof.
  intros Hdf _. split.
  - rewrite calculate_fit_cases, Hdf. now destruct d.
  - intros Hlen. unfold spec_sigma_y_resid. rewrite Hlen.
    now apply sqrt_div_by_zero_not_finite.
Qed.

(** C4, as amended. A Dataset (of at least one point) whose determinant
    [D = N*Sxx - Sx^2] is zero is not refused as degenerate: the division
    by [D] is performed, the fit returns a FitResult, and its slope, the
    quotient by a zero, is NaN or an infinity. *)
Theorem calculate_fit_zero_determinant (self : WaterDensity) (d : DataFrame) :
  df self = Some d ->
  (0 < length d)%nat ->
  (spec_D d =? 0) = true ->
  exists r,
    fst (calculate_fit self) = Ok r
    /\ fit_a r = (spec_N d * spec_Sxy d - spec_Sx d * spec_Sy d) / spec_D d
    /\ is_finite (fit_a r) = false.
Proof.
  intros Hdf Hlen HD.
  assert (Hne : d <> []) by (intros ->; simpl in Hlen; lia).
  exists (spec_fit self d).
  rewrite (calculate_fit_nonempty _ _ Hdf Hne).
  repeat split.
  cbn [spec_fit fit_a]. unfold spec_a.
  now apply div_by_zero_not_finite.
Qed.

(** C7, as amended. [calculate_fit] has one side effect: it stores the
    FitResult it returns in [fit_results].  The reference constants and
    the Dataset of the object are left as they were, and the computed
    values of the FitResult depend on the Dataset alone: another object
    holding the same Dataset gets the same values. *)
Theorem calculate_fit_effect (self self' : WaterDensity) (r : FitResults) :
  calculate_fit self = (Ok r, self') ->
  M0 self' = M0 self /\ V0 self' = V0 self /\ rho self' = rho self
  /\ df self' = df self
  /\ fit_results self' = Some r
  /\ (forall other other' r',
        df other = df self ->
        calculate_fit other = (Ok r', other') ->
        fit_values r' = fit_values r).
Proof.
  intros Hfit.
  destruct (calculate_fit_ok_inv _ _ _ Hfit) as (d & Hdf & _ & Hr & ->).
  repeat split.
  intros other other' r' Hsame Hother.
  destruct (calculate_fit_ok_inv _ _ _ Hother) as (d' & Hdf' & _ & Hr' & _).
  assert (d' = d) by congruence.
  subst. reflexivity.
Qed.

(** C8. Invoking [calculate_fit] a second time, on the object as the first
    invocation left it (the Dataset unchanged), yields the very same
    outcome, an identical FitResult, bit for bit, or the same error, and
    leaves the object as the first invocation left it. *)
Theorem calculate_fit_twice (self : WaterDensity) :
  calculate_fit (snd (calculate_fit self)) = calculate_fit self.
Proof.
  rewrite (calculate_fit_cases self).
  destruct (df self) as [[|m d]|] eqn:Hdf; cbn [snd];
    rewrite calculate_fit_cases; cbn [set_fit_results df]; rewrite ?Hdf;
    reflexivity.
Qed.

(** C10. [calculate_fit] leaves the stored Dataset unchanged: after the
    call, failed or not, [df] holds the same Measurements with the same
    [x], [y], [sigma_x], [sigma_y], although the FitResult has been stored
    in the object. *)
Theorem calculate_fit_keeps_dataset (self : WaterDensity) :
  df (snd (calculate_fit self)) = df self.
Proof.
  unfold calculate_fit.
  case_eq (df self); [intros d Hdf | intros Hdf; exact Hdf].
  cbv zeta.
  case (Z.of_nat (length (List.map V d)) =? 0)%Z; exact Hdf.
Qed.

End LinearFitter.

(** ** DataGenerator: the claims about [gen_fake_data] *)

(** The four columns [gen_fake_data] hands to [pd.DataFrame], row by row. *)
Lemma generated_rows (self : WaterDensity) (err_M err_V : float)
    (xs us : list float) :
  let nominal :=
    List.map (fun v => rho self * v + (M0 self - rho self * V0 self)) xs in
  let M_values := arr_map2 PrimFloat.add nominal us in
  make_df M_values (List.map (fun m => m * err_M) M_values)
          xs (List.map (fun v => v * err_V) xs)
  = fake_df self err_M err_V xs us.
Proof.
  unfold arr_map2, fake_df. revert us.
  induction xs as [|x xs IH]; intros [|u us]; simpl; try reflexivity.
  f_equal. apply IH.
Qed.

Lemma fake_df_length (self : WaterDensity) (err_M err_V : float)
    (xs us : list float) :
  length xs = length us -> length (fake_df self err_M err_V xs us) = length xs.
Proof.
  intros H. unfold fake_df.
  rewrite length_map, length_combine, <- H. apply Nat.min_id.
Qed.

Lemma fake_df_volumes (self : WaterDensity) (err_M err_V : float)
    (xs us : list float) :
  length xs = length us -> List.map V (fake_df self err_M err_V xs us) = xs.
Proof.
  unfold fake_df. revert us.
  induction xs as [|x xs IH]; intros [|u us] H; simpl in *;
    try reflexivity; try discriminate.
  f_equal. apply IH. now injection H.
Qed.

Lemma fake_df_nth_error (self : WaterDensity) (err_M err_V : float)
    (xs us : list float) (i : nat) (m : Measurement) :
  nth_error (fake_df self err_M err_V xs us) i = Some m ->
  exists v u, nth_error xs i = Some v /\ nth_error us i = Some u
              /\ m = fake_row self err_M err_V v u.
Proof.
  unfold fake_df. revert us i.
  induction xs as [|x xs IH]; intros [|u us] [|i]; simpl; try discriminate.
  - intros [= <-]. now exists x, u.
  - apply IH.
Qed.

Section DataGenerator.

Context {numpy : NumPy}.

(** [gen_fake_data], outcome by outcome: an exception of [np.linspace] or
    of [np.random.uniform] is passed on and leaves the object as it was;
    otherwise the DataFrame of the generated rows is stored and returned. *)
Lemma gen_fake_data_cases (self : WaterDensity) (n : Z)
    (V_min V_max err_M err_V noise : float) (rs : RandomState) :
  gen_fake_data self n V_min V_max err_M err_V noise rs =
  match np_linspace V_min V_max n with
  | Raise e => (Raise e, self, rs)
  | Ok xs =>
      match np_random_uniform (- noise) noise n rs with
      | (Raise e, rs') => (Raise e, self, rs')
      | (Ok us, rs') =>
          (Ok (fake_df self err_M err_V xs us),
           set_df self (fake_df self err_M err_V xs us), rs')
      end
  end.
Proof.
  unfold gen_fake_data.
  destruct (np_linspace V_min V_max n) as [xs|e]; [|reflexivity].
  destruct (np_random_uniform (- noise) noise n rs) as [[us|e] rs'];
    [|reflexivity].
  cbv zeta. now rewrite generated_rows.
Qed.

Lemma numpy_same_shape (n : Z) (start stop low high : float)
    (rs rs' : RandomState) (xs us : list float) :
  np_linspace start stop n = Ok xs ->
  np_random_uniform low high n rs = (Ok us, rs') ->
  length xs = length us /\ Z.of_nat (length xs) = n.
Proof.
  intros Hxs Hus.
  apply np_linspace_length in Hxs.
  apply np_random_uniform_length in Hus.
  lia.
Qed.


(** C6, as amended. The generator checks none of its arguments and has no
    InvalidArgument error of its own: a call fails exactly when [n] is
    negative (refused by [np.linspace]) or the draw of [np.random.uniform]
    fails.  In every other call, so also with [0 <= n < 3], with
    [x_min >= x_max] or with a negative [err_y] or [err_x], it returns a
    Dataset, of [n] Measurements. *)
Theorem gen_fake_data_unchecked (self : WaterDensity) (n : Z)
    (V_min V_max err_M err_V noise : float) (rs : RandomState) :
  let outcome := fst (fst (gen_fake_data self n V_min V_max err_M err_V noise rs)) in
  is_ok outcome
  = (0 <=? n)%Z && is_ok (fst (np_random_uniform (- noise) noise n rs))
  /\ match outcome with
     | Ok d => Z.of_nat (length d) = n
     | Raise _ => True
     end.
Proof.
  cbv zeta. rewrite gen_fake_data_cases.
  rewrite <- (np_linspace_ok V_min V_max n).
  destruct (np_linspace V_min V_max n) as [xs|e] eqn:Hxs; [|now split].
  destruct (np_random_uniform (- noise) noise n rs) as [[us|e] rs'] eqn:Hus;
    [|now split].
  split; [reflexivity|].
  cbn [fst].
  destruct (numpy_same_shape _ _ _ _ _ _ _ _ _ Hxs Hus) as [Hshape Hlen].
  now rewrite fake_df_length.
Qed.


End DataGenerator.

(** ** The claims on concrete data

    The methods run on the reference numpy. *)
Section Examples.

#[local] Existing Instance Reference.numpy.

(** The scenario of the specification: the three points of [y = x + 300]
    fit to [a = 1], [b = 300] with no uncertainty left. *)
Example calculate_fit_line_data :
  calculate_fit (holding line_data)
  = (Ok line_fit, set_fit_results (holding line_data) line_fit).
Proof. vm_compute. reflexivity. Qed.

Lemma calculate_fit_line_witness :
  df (holding line_data) = Some line_data
  /\ calculate_fit (holding line_data)
     = (Ok line_fit, set_fit_results (holding line_data) line_fit)
  /\ fit_a line_fit
     = (spec_N line_data * spec_Sxy line_data
        - spec_Sx line_data * spec_Sy line_data)
       / (spec_N line_data * spec_Sxx line_data
          - float64_pow2 (spec_Sx line_data))
  /\ length (fit_y_pred line_fit) = length line_data.
Proof.
  assert (Hdf : df (holding line_data) = Some line_data) by reflexivity.
  assert (Hfit : calculate_fit (holding line_data)
                 = (Ok line_fit, set_fit_results (holding line_data) line_fit))
    by (vm_compute; reflexivity).
  destruct (calculate_fit_line _ _ _ _ Hdf Hfit) as (Ha & _ & Hlen & _).
  split; [exact Hdf|]. split; [exact Hfit|]. split; [exact Ha | exact Hlen].
Defined.

Lemma calculate_fit_uncertainties_witness :
  df (holding scattered_data) = Some scattered_data
  /\ calculate_fit (holding scattered_data)
     = (Ok scattered_fit, set_fit_results (holding scattered_data) scattered_fit)
  /\ fit_sigma_y scattered_fit
     = PrimFloat.sqrt
         (sum_over (fun m => sq (M m - (fit_a scattered_fit * V m
                                        + fit_b scattered_fit)))
                   scattered_data
          / float_of_int (Z.of_nat (length scattered_data) - 2)).
Proof.
  assert (Hdf : df (holding scattered_data) = Some scattered_data)
    by reflexivity.
  assert (Hfit : calculate_fit (holding scattered_data)
                 = (Ok scattered_fit,
                    set_fit_results (holding scattered_data) scattered_fit))
    by (vm_compute; reflexivity).
  split; [exact Hdf|]. split; [exact Hfit|].
  exact (proj1 (calculate_fit_uncertainties _ _ _ _ Hdf Hfit)).
Defined.

(** C3 fails on two points: the fit returns a FitResult, whose residual
    standard error and uncertainties are NaN. *)
Lemma calculate_fit_two_points :
  (length two_points < 3)%nat
  /\ fst (calculate_fit (holding two_points)) = Ok two_points_fit.
Proof.
  split; [simpl; lia | vm_compute; reflexivity].
Qed.

Lemma calculate_fit_few_points_witness :
  df (holding two_points) = Some two_points
  /\ (length two_points < 3)%nat
  /\ fst (calculate_fit (holding two_points))
     = Ok (spec_fit (holding two_points) two_points)
  /\ is_finite (spec_sigma_y_resid two_points) = false.
Proof.
  assert (Hdf : df (holding two_points) = Some two_points) by reflexivity.
  assert (Hlen : (length two_points < 3)%nat) by (simpl; lia).
  destruct (calculate_fit_few_points _ _ Hdf Hlen) as [Hfit Hsigma].
  split; [exact Hdf|]. split; [exact Hlen|].
  split; [exact Hfit | apply Hsigma; reflexivity].
Defined.

(** C4 fails on three points of one volume: [D] is zero, the division is
    performed all the same and the fit returns a FitResult full of NaN. *)
Lemma calculate_fit_same_volume :
  (spec_D same_volume =? 0) = true
  /\ fst (calculate_fit (holding same_volume)) = Ok same_volume_fit.
Proof.
  split; vm_compute; reflexivity.
Qed.

Lemma calculate_fit_zero_determinant_witness :
  df (holding same_volume) = Some same_volume
  /\ (0 < length same_volume)%nat
  /\ (spec_D same_volume =? 0) = true
  /\ exists r,
       fst (calculate_fit (holding same_volume)) = Ok r
       /\ fit_a r = (spec_N same_volume * spec_Sxy same_volume
                     - spec_Sx same_volume * spec_Sy same_volume)
                    / spec_D same_volume
       /\ is_finite (fit_a r) = false.
Proof.
  assert (Hdf : df (holding same_volume) = Some same_volume) by reflexivity.
  assert (Hlen : (0 < length same_volume)%nat) by (simpl; lia).
  assert (HD : (spec_D same_volume =? 0) = true) by (vm_compute; reflexivity).
  split; [exact Hdf|]. split; [exact Hlen|]. split; [exact HD|].
  exact (calculate_fit_zero_determinant _ _ Hdf Hlen HD).
Defined.

(** C7 fails on any successful fit: the object held no fit before the call
    and holds one after it. *)
Lemma calculate_fit_changes_object :
  fit_results (holding line_data) = None
  /\ fit_results (snd (calculate_fit (holding line_data))) = Some line_fit.
Proof.
  split; [reflexivity | vm_compute; reflexivity].
Qed.

Lemma calculate_fit_effect_witness :
  calculate_fit (holding line_data)
  = (Ok line_fit, set_fit_results (holding line_data) line_fit)
  /\ df (set_fit_results (holding line_data) line_fit) = df (holding line_data)
  /\ fit_results (set_fit_results (holding line_data) line_fit) = Some line_fit.
Proof.
  assert (Hfit : calculate_fit (holding line_data)
                 = (Ok line_fit, set_fit_results (holding line_data) line_fit))
    by (vm_compute; reflexivity).
  destruct (calculate_fit_effect _ _ _ Hfit) as (_ & _ & _ & Hdf & Hres & _).
  split; [exact Hfit|]. split; [exact Hdf | exact Hres].
Defined.


(** C6 fails on a call that breaks every rule but the sign of the noise:
    two points, an inverted range, negative error fractions; a Dataset
    comes back. *)
Lemma gen_fake_data_accepts_invalid :
  (2 < 3)%Z
  /\ (200 <? 110) = false
  /\ (-0.5 <? 0) = true
  /\ fst (fst (gen_fake_data (init 300 100 1) 2 200 110 (-0.5) (-0.5) 4
                            quarter_draws))
     = Ok generated_unchecked.
Proof.
  repeat split; try lia; vm_compute; reflexivity.
Qed.



End Examples.

(** ** Reference routines for the presenter

    Fixed notation as Python prints it (the exact binary value, rounded to
    the digits asked for, ties to even), a stable sort of the indices with
    NaN last, and a table in the [tabular] layout of pandas. *)
Module ReferenceLibs.

Definition decimal (n : Z) : string :=
  DecimalString.NilZero.string_of_uint (N.to_uint (Z.to_N n)).

Fixpoint zeros (n : nat) : string :=
  match n with
  | O => EmptyString
  | S n' => ("0" ++ zeros n')%string
  end.

(** The integer nearest to [m * 2^e], ties to even. *)
Definition round_scaled (m e : Z) : Z :=
  if (0 <=? e)%Z then (m * 2 ^ e)%Z
  else
    let d := (2 ^ (- e))%Z in
    let q := (m / d)%Z in
    match (2 * (m mod d) ?= d)%Z with
    | Lt => q
    | Gt => (q + 1)%Z
    | Eq => if Z.even q then q else (q + 1)%Z
    end.

(** [n / 10^digits] written with [digits] decimals. *)
Definition fixed (digits : nat) (n : Z) : string :=
  let scale := (10 ^ Z.of_nat digits)%Z in
  let whole := decimal (n / scale) in
  match digits with
  | O => whole
  | _ =>
      let part := decimal (n mod scale) in
      (whole ++ "." ++ zeros (digits - String.length part) ++ part)%string
  end.

Definition format (digits : nat) (x : float) : string :=
  let sign (s : bool) : string := if s then "-"%string else EmptyString in
  match Prim2SF x with
  | S754_nan => "nan"%string
  | S754_infinity s => (sign s ++ "inf")%string
  | S754_zero s => (sign s ++ fixed digits 0)%string
  | S754_finite s m e =>
      (sign s ++ fixed digits
                   (round_scaled (Z.pos m * 10 ^ Z.of_nat digits) e))%string
  end.

(** [x] is put before [y]: NaN goes last. *)
Definition before (x y : float) : bool := (x <=? y) || is_nan y.

Fixpoint insert (p : float * nat) (l : list (float * nat)) : list (float * nat) :=
  match l with
  | [] => [p]
  | q :: l' => if before (fst p) (fst q) then p :: l else q :: insert p l'
  end.

Definition argsort (xs : list float) : list nat :=
  List.map snd (fold_right insert [] (combine xs (seq 0 (length xs)))).

Definition newline : string := String (Ascii.ascii_of_nat 10) EmptyString.

Definition latex_line (cells : list string) : string :=
  (String.concat " & " cells ++ " \\" ++ newline)%string.

Definition latex (t : Table) : string :=
  ("\begin{tabular}{llll}" ++ newline
   ++ "\toprule" ++ newline
   ++ latex_line table_columns
   ++ "\midrule" ++ newline
   ++ String.concat EmptyString
        (List.map (fun r => latex_line [M_pm r; M_frac r; V_pm r; V_frac r]) t)
   ++ "\bottomrule" ++ newline
   ++ "\end{tabular}" ++ newline)%string.

Lemma insert_permutation (p : float * nat) (l : list (float * nat)) :
  Permutation (insert p l) (p :: l).
Proof.
  induction l as [|q l IH]; simpl; [reflexivity|].
  destruct (before (fst p) (fst q)); [reflexivity|].
  rewrite IH. apply perm_swap.
Qed.

Lemma sort_permutation (l : list (float * nat)) :
  Permutation (fold_right insert [] l) l.
Proof.
  induction l as [|p l IH]; simpl; [reflexivity|].
  rewrite insert_permutation. now constructor.
Qed.

Lemma argsort_permutation (xs : list float) :
  Permutation (argsort xs) (seq 0 (length xs)).
Proof.
  unfold argsort. rewrite sort_permutation.
  assert (H : forall (ys : list float) (ns : list nat),
             length ys = length ns -> List.map snd (combine ys ns) = ns).
  { induction ys as [|y ys IH]; intros [|n ns] Hlen; simpl in *;
      try reflexivity; try discriminate.
    f_equal. apply IH. now injection Hlen. }
  rewrite H; [reflexivity | now rewrite length_seq].
Qed.

#[export] Instance libs : PresenterLibs := {
  format_f := format;
  np_argsort := argsort;
  to_latex := latex;
  np_argsort_permutation := argsort_permutation
}.

End ReferenceLibs.

(** ** More facts of binary64 arithmetic: signs *)

Lemma is_nan_spec (x : float) :
  is_nan x = match Prim2SF x with S754_nan => true | _ => false end.
Proof.
  unfold is_nan. rewrite eqb_spec. unfold SFeqb.
  destruct (Prim2SF x) as [s|s| |s m e]; simpl; try reflexivity.
  - now destruct s.
  - destruct s; rewrite Z.compare_refl, Pos.compare_cont_refl; reflexivity.
Qed.

Lemma nonneg_or_nan_spec (x : float) :
  nonneg_or_nan x = SF_unsigned (Prim2SF x).
Proof.
  unfold nonneg_or_nan. rewrite is_nan_spec, leb_zero_spec.
  now destruct (Prim2SF x).
Qed.

Lemma round_plus (mx ex : Z) (lx : location) :
  SF_plus (binary_round_aux prec emax false mx ex lx) = true.
Proof.
  pose proof (binary_round_aux_sign false mx ex lx) as H.
  destruct (binary_round_aux _ _ _ _ _ _); simpl; subst; reflexivity.
Qed.

Lemma SF_plus_unsigned (x : spec_float) :
  SF_plus x = true -> SF_unsigned x = true.
Proof. now destruct x. Qed.

Lemma sqrt_unsigned (z : spec_float) : SF_unsigned (SF64sqrt z) = true.
Proof.
  destruct z as [s|s| |s m e]; simpl; try reflexivity.
  - now destruct s.
  - destruct s; [reflexivity|].
    destruct (SFsqrt_core_binary _ _ _ _) as [[mz ez] lz].
    apply SF_plus_unsigned, round_plus.
Qed.

Lemma sqrt_plus (z : spec_float) :
  match z with S754_zero _ => False | _ => True end ->
  SF_plus (SF64sqrt z) = true.
Proof.
  destruct z as [s|s| |s m e]; simpl; try reflexivity; try contradiction.
  - now destruct s.
  - intros _. destruct s; [reflexivity|].
    destruct (SFsqrt_core_binary _ _ _ _) as [[mz ez] lz].
    apply round_plus.
Qed.

Lemma mul_unsigned (x y : spec_float) :
  SF_unsigned x = true -> SF_unsigned y = true ->
  SF_unsigned (SF64mul x y) = true.
Proof.
  destruct x as [sx|sx| |sx mx ex], y as [sy|sy| |sy my ey]; simpl;
    try reflexivity; try discriminate;
    try (destruct sx; try discriminate; destruct sy; try discriminate;
         reflexivity).
  destruct sx; [discriminate|]. destruct sy; [discriminate|]. intros _ _.
  apply SF_plus_unsigned, round_plus.
Qed.

Lemma div_unsigned (x y : spec_float) :
  SF_unsigned x = true -> SF_plus y = true ->
  SF_unsigned (SF64div x y) = true.
Proof.
  destruct x as [sx|sx| |sx mx ex], y as [sy|sy| |sy my ey]; simpl;
    try reflexivity; try discriminate;
    try (destruct sx; try discriminate; destruct sy; try discriminate;
         reflexivity).
  destruct sx; [discriminate|]. destruct sy; [discriminate|]. intros _ _.
  simpl. destruct (SFdiv_core_binary _ _ _ _ _ _) as [[mz ez] lz].
  apply SF_plus_unsigned, round_plus.
Qed.

(** A square root is never a negative number. *)
Lemma sqrt_nonneg_or_nan (z : float) :
  nonneg_or_nan (PrimFloat.sqrt z) = true.
Proof. rewrite nonneg_or_nan_spec, sqrt_spec. apply sqrt_unsigned. Qed.

Lemma mul_nonneg_or_nan (x y : float) :
  nonneg_or_nan x = true -> nonneg_or_nan y = true ->
  nonneg_or_nan (x * y) = true.
Proof. rewrite !nonneg_or_nan_spec, mul_spec. apply mul_unsigned. Qed.

Lemma nonzero_spec (z : float) :
  (z =? 0) = false ->
  match Prim2SF z with S754_zero _ => False | _ => True end.
Proof.
  rewrite eqb_spec. change (Prim2SF 0) with (S754_zero false).
  destruct (Prim2SF z); simpl; auto. discriminate.
Qed.

Lemma div_sqrt_nonneg_or_nan (x z : float) :
  nonneg_or_nan x = true -> (z =? 0) = false ->
  nonneg_or_nan (x / PrimFloat.sqrt z) = true.
Proof.
  intros Hx Hz. rewrite nonneg_or_nan_spec in *. rewrite div_spec, sqrt_spec.
  apply div_unsigned; [assumption|]. now apply sqrt_plus, nonzero_spec.
Qed.

(** ** Beyond the claims: generator and fit together *)

Section GenerateAndFit.

Context {numpy : NumPy}.

(** X1. [gen_fake_data] never touches the fit or the reference constants:
    after a call, failed or not, [fit_results], [M0], [V0] and [rho] are
    what they were, so a fit computed earlier stays stored when the data
    are generated anew; and a failed call leaves the whole object as it
    was, the old data included. *)
Theorem gen_fake_data_keeps_fit (self : WaterDensity) (n : Z)
    (V_min V_max err_M err_V noise : float) (rs : RandomState) :
  let call := gen_fake_data self n V_min V_max err_M err_V noise rs in
  let self' := snd (fst call) in
  fit_results self' = fit_results self
  /\ M0 self' = M0 self /\ V0 self' = V0 self /\ rho self' = rho self
  /\ (is_ok (fst (fst call)) = false -> self' = self).
Proof.
  cbv zeta. rewrite gen_fake_data_cases.
  destruct (np_linspace V_min V_max n) as [xs|e]; [|now repeat split].
  destruct (np_random_uniform (- noise) noise n rs) as [[us|e] rs'];
    cbn [fst snd]; repeat split.
  discriminate.
Qed.

(** X2. [calculate_fit] succeeds exactly when the object holds at least
    one Measurement, whatever the values (NaN and infinities included);
    when it fails the object is left as it was. *)
Theorem calculate_fit_succeeds_iff (self : WaterDensity) :
  is_ok (fst (calculate_fit self))
  = match df self with
    | Some (_ :: _) => true
    | _ => false
    end
  /\ (is_ok (fst (calculate_fit self)) = false ->
      snd (calculate_fit self) = self).
Proof.
  rewrite calculate_fit_cases.
  destruct (df self) as [[|m d]|]; cbn [fst snd is_ok]; split;
    try reflexivity; discriminate.
Qed.

(** X3. The fit is unweighted: it reads the volume and mass columns only.
    Two objects whose data agree on these two columns, whatever their
    uncertainty columns, get the same outcome from [calculate_fit]: the
    same computed values [a], [b], [sigma_a], [sigma_b], [sigma_y],
    [y_pred], or the same exception. *)
Theorem calculate_fit_ignores_uncertainties (s1 s2 : WaterDensity)
    (d1 d2 : DataFrame) :
  df s1 = Some d1 ->
  df s2 = Some d2 ->
  List.map V d1 = List.map V d2 ->
  List.map M d1 = List.map M d2 ->
  match fst (calculate_fit s1), fst (calculate_fit s2) with
  | Ok r1, Ok r2 => fit_values r1 = fit_values r2
  | Raise e1, Raise e2 => e1 = e2
  | _, _ => False
  end.
Proof.
  intros H1 H2 HV HM.
  unfold calculate_fit. rewrite H1, H2. cbv zeta.
  rewrite HV, HM.
  destruct (Z.of_nat (length (List.map V d2)) =? 0)%Z; reflexivity.
Qed.

(** X4. Generation and fit in a row: on the Dataset of a successful
    [gen_fake_data(n, ...)], [calculate_fit] succeeds as soon as [n >= 1],
    returns [n] predictions and echoes the reference constants of the
    object; after [gen_fake_data(0, ...)], which succeeds with an empty
    Dataset, it raises [ZeroDivisionError]. *)
Theorem generate_then_fit (self self' : WaterDensity) (n : Z)
    (V_min V_max err_M err_V noise : float) (rs rs' : RandomState)
    (d : DataFrame) :
  gen_fake_data self n V_min V_max err_M err_V noise rs = (Ok d, self', rs') ->
  match fst (calculate_fit self') with
  | Ok r =>
      (1 <= n)%Z
      /\ Z.of_nat (length (fit_y_pred r)) = n
      /\ fit_M0 r = M0 self /\ fit_V0 r = V0 self /\ fit_rho r = rho self
      /\ fit_results (snd (calculate_fit self')) = Some r
  | Raise e => n = 0%Z /\ d = [] /\ e = ZeroDivisionError
  end.
Proof.
  intros Hgen.
  rewrite gen_fake_data_cases in Hgen.
  destruct (np_linspace V_min V_max n) as [xs|e] eqn:Hxs; [|discriminate].
  destruct (np_random_uniform (- noise) noise n rs) as [[us|e] rs1] eqn:Hus;
    [|discriminate].
  destruct (numpy_same_shape _ _ _ _ _ _ _ _ _ Hxs Hus) as [Hshape Hlen].
  injection Hgen as <- <- _.
  pose proof (fake_df_length self err_M err_V xs us Hshape) as Hd.
  rewrite calculate_fit_cases. cbn [set_df df].
  destruct (fake_df self err_M err_V xs us) as [|m d'] eqn:Hrows;
    cbn [fst snd].
  - simpl in Hd. repeat split. lia.
  - cbn [spec_fit fit_y_pred fit_M0 fit_V0 fit_rho set_fit_results
         fit_results M0 V0 rho].
    rewrite length_map, Hd.
    repeat split; try assumption.
    simpl in Hd. lia.
Qed.

(** X5. The uncertainties a fit reports are never negative numbers: the
    residual standard error [sigma_y] and the intercept uncertainty
    [sigma_b] are NaN or [>= 0], and so is the slope uncertainty
    [sigma_a] unless [Sxx_centered] is a zero. *)
Theorem calculate_fit_uncertainties_not_negative (self self' : WaterDensity)
    (d : DataFrame) (r : FitResults) :
  df self = Some d ->
  calculate_fit self = (Ok r, self') ->
  nonneg_or_nan (fit_sigma_y r) = true
  /\ nonneg_or_nan (fit_sigma_b r) = true
  /\ ((spec_Sxx d - float64_pow2 (spec_Sx d) / spec_N d =? 0) = false ->
      nonneg_or_nan (fit_sigma_a r) = true).
Proof.
  intros Hdf Hfit.
  destruct (calculate_fit_ok_inv _ _ _ Hfit) as (d' & Hdf' & _ & -> & _).
  assert (d' = d) as -> by congruence.
  cbn [spec_fit fit_sigma_y fit_sigma_b fit_sigma_a].
  assert (Hy : nonneg_or_nan (spec_sigma_y_resid d) = true)
    by apply sqrt_nonneg_or_nan.
  split; [exact Hy|]. split.
  - apply mul_nonneg_or_nan; [exact Hy | apply sqrt_nonneg_or_nan].
  - intros HS. now apply div_sqrt_nonneg_or_nan.
Qed.

End GenerateAndFit.

(** ** Beyond the claims: the presenter *)

Lemma make_table_map {A : Type} (f1 f2 f3 f4 : A -> string) (l : list A) :
  make_table (List.map f1 l) (List.map f2 l) (List.map f3 l) (List.map f4 l)
  = List.map (fun x => mkTableRow (f1 x) (f2 x) (f3 x) (f4 x)) l.
Proof.
  induction l as [|x l IH]; simpl; [reflexivity|].
  now rewrite IH.
Qed.

Lemma combine_map_map {A B C : Type} (g : A -> B) (h : A -> C) (l : list A) :
  combine (List.map g l) (List.map h l) = List.map (fun x => (g x, h x)) l.
Proof.
  induction l as [|x l IH]; simpl; [reflexivity|].
  now rewrite IH.
Qed.

Lemma take_length (arr : list float) (idx : list nat) (ys : list float) :
  take arr idx = Some ys -> length ys = length idx.
Proof.
  revert ys.
  induction idx as [|i idx IH]; simpl; intros ys.
  - now intros [= <-].
  - destruct (nth_error arr i) as [x|]; [|discriminate].
    destruct (take arr idx) as [xs|]; [|discriminate].
    intros [= <-]. simpl. f_equal. now apply IH.
Qed.

(** Indexing succeeds exactly when every index is in bounds. *)
Lemma take_in_bounds (arr : list float) (idx : list nat) :
  take arr idx <> None <-> Forall (fun i => (i < length arr)%nat) idx.
Proof.
  induction idx as [|i idx IH]; simpl.
  - split; [constructor | discriminate].
  - destruct (nth_error arr i) as [x|] eqn:Hi.
    + assert (Hlt : (i < length arr)%nat)
        by (apply nth_error_Some; congruence).
      destruct (take arr idx) as [xs|].
      * split; [|discriminate].
        intros _. constructor; [exact Hlt | apply IH; discriminate].
      * split; [congruence|].
        intros H. inversion H; subst. now apply IH.
    + apply nth_error_None in Hi.
      split; [congruence|].
      intros H. inversion H; subst. lia.
Qed.

(** Indexing by a permutation of the first [n] indices succeeds exactly
    when the array has at least [n] entries. *)
Lemma take_permutation_bounds (arr : list float) (idx : list nat) (n : nat) :
  Permutation idx (seq 0 n) ->
  (take arr idx <> None <-> (n <= length arr)%nat).
Proof.
  intros Hperm. rewrite take_in_bounds.
  split.
  - intros H.
    assert (H' : Forall (fun i => (i < length arr)%nat) (seq 0 n))
      by (eapply Permutation_Forall; eassumption).
    rewrite Forall_forall in H'.
    destruct n as [|n]; [lia|].
    assert (Hin : In n (seq 0 (S n))) by (apply in_seq; lia).
    specialize (H' n Hin). lia.
  - intros Hle.
    eapply Permutation_Forall; [symmetry; eassumption|].
    apply Forall_forall. intros i Hi. apply in_seq in Hi. lia.
Qed.

Lemma take_pairs (xs ys : list float) (idx : list nat) (xs' ys' : list float) :
  take xs idx = Some xs' ->
  take ys idx = Some ys' ->
  combine xs' ys' = List.map (fun i => (nth i xs 0, nth i ys 0)) idx.
Proof.
  revert xs' ys'.
  induction idx as [|i idx IH]; simpl; intros xs' ys'.
  - now intros [= <-] [= <-].
  - destruct (nth_error xs i) as [x|] eqn:Hx; [|discriminate].
    destruct (take xs idx) as [xt|]; [|discriminate].
    destruct (nth_error ys i) as [y|] eqn:Hy; [|discriminate].
    destruct (take ys idx) as [yt|]; [|discriminate].
    intros [= <-] [= <-]. simpl.
    rewrite (nth_error_nth _ _ _ Hx), (nth_error_nth _ _ _ Hy).
    f_equal. now apply IH.
Qed.

Lemma pairs_of_indices (xs ys : list float) :
  (length xs <= length ys)%nat ->
  List.map (fun i => (nth i xs 0, nth i ys 0)) (seq 0 (length xs))
  = combine xs ys.
Proof.
  revert ys.
  induction xs as [|x xs IH]; intros [|y ys] Hle; simpl in *;
    try reflexivity; try lia.
  f_equal.
  rewrite <- seq_shift, map_map. apply IH. lia.
Qed.

Lemma map_fst_combine_same {A : Type} (l : list A) :
  List.map fst (combine l l) = l.
Proof.
  induction l as [|x l IH]; simpl; [reflexivity|].
  now rewrite IH.
Qed.

(** Indexing an array by a permutation of its indices rearranges it. *)
Lemma take_rearranges (xs : list float) (idx : list nat) (xs' : list float) :
  Permutation idx (seq 0 (length xs)) ->
  take xs idx = Some xs' ->
  Permutation xs' xs.
Proof.
  intros Hperm Htake.
  rewrite <- (map_fst_combine_same xs'), <- (map_fst_combine_same xs).
  apply Permutation_map.
  rewrite (take_pairs xs xs idx xs' xs' Htake Htake).
  rewrite <- (pairs_of_indices xs xs (Nat.le_refl _)).
  now apply Permutation_map.
Qed.

Lemma arr_map2_nth (f : float -> float -> float) (xs ys : list float)
    (i : nat) (x y : float) :
  nth_error xs i = Some x ->
  nth_error ys i = Some y ->
  nth_error (arr_map2 f xs ys) i = Some (f x y).
Proof.
  unfold arr_map2. revert ys i.
  induction xs as [|a xs IH]; intros [|b ys] [|i]; simpl; try discriminate.
  - now intros [= <-] [= <-].
  - apply IH.
Qed.

Section Presenter.

Context {numpy : NumPy} {libs : PresenterLibs}.

Lemma comprehension_frac {A : Type} (g h : A -> float) (l : list A) :
  comprehension (fun p => frac (fst p) (snd p))
                (combine (List.map g l) (List.map h l))
  = if existsb (fun x => g x =? 0) l then Raise ZeroDivisionError
    else Ok (List.map (fun x => format_f 3 (h x / g x)) l).
Proof.
  induction l as [|x l IH]; simpl; [reflexivity|].
  unfold frac at 1, py_float_div. cbn [fst snd].
  destruct (g x =? 0); simpl; [reflexivity|].
  rewrite IH.
  now destruct (existsb (fun x0 => g x0 =? 0) l).
Qed.

(** [format_table], outcome by outcome: [ValueError] without data,
    [ZeroDivisionError] when a mass or a volume is a zero, otherwise one
    row per Measurement. *)
Lemma format_table_cases (self : WaterDensity) :
  format_table self =
  match df self with
  | None => Raise (ValueError no_table_msg)
  | Some d =>
      if existsb has_zero d then Raise ZeroDivisionError
      else Ok (List.map format_row d)
  end.
Proof.
  unfold format_table.
  destruct (df self) as [d|]; [|reflexivity].
  cbv zeta. rewrite !comprehension_frac.
  assert (Hz : existsb has_zero d
               = existsb (fun m => M m =? 0) d || existsb (fun m => V m =? 0) d).
  { unfold has_zero. induction d as [|m d IH]; simpl; [reflexivity|].
    rewrite IH.
    destruct (M m =? 0), (V m =? 0), (existsb (fun m0 => M m0 =? 0) d);
      reflexivity. }
  rewrite Hz.
  destruct (existsb (fun m => M m =? 0) d); [reflexivity|].
  destruct (existsb (fun m => V m =? 0) d); [reflexivity|].
  cbn [bind orb].
  rewrite !combine_map_map, !map_map. cbn [fst snd].
  now rewrite make_table_map.
Qed.

(** X6. [format_table] fails with [ValueError] exactly when the object
    holds no data, and with [ZeroDivisionError] exactly when some
    Measurement has a mass or a volume equal to zero (the fractional
    uncertainty divides by it); otherwise it returns a table with one row
    per Measurement. *)
Theorem format_table_outcome (self : WaterDensity) :
  match format_table self with
  | Ok t =>
      exists d, df self = Some d /\ existsb has_zero d = false
                /\ length t = length d
  | Raise ZeroDivisionError =>
      exists d, df self = Some d /\ existsb has_zero d = true
  | Raise (ValueError msg) => df self = None /\ msg = no_table_msg
  | Raise OverflowError => False
  end.
Proof.
  rewrite format_table_cases.
  destruct (df self) as [d|]; [|now split].
  destruct (existsb has_zero d) eqn:Hz.
  - now exists d.
  - exists d. split; [reflexivity|]. split; [exact Hz | apply length_map].
Qed.

(** X7. The rows of the table follow the Measurements, in order: row [i]
    holds the mass and the volume of Measurement [i] with their
    uncertainties, each to three decimals and joined by [\pm], and the
    two quotients [sigma / value], to three decimals. *)
Theorem format_table_rows (self : WaterDensity) (t : Table) (d : DataFrame)
    (i : nat) (m : Measurement) :
  df self = Some d ->
  format_table self = Ok t ->
  nth_error d i = Some m ->
  nth_error t i
  = Some (mkTableRow
            (format_f 3 (M m) ++ " \pm " ++ format_f 3 (sigma_M m))
            (format_f 3 (sigma_M m / M m))
            (format_f 3 (V m) ++ " \pm " ++ format_f 3 (sigma_V m))
            (format_f 3 (sigma_V m / V m))).
Proof.
  intros Hdf Ht Hi.
  rewrite format_table_cases, Hdf in Ht.
  destruct (existsb has_zero d); [discriminate|].
  injection Ht as <-.
  now rewrite nth_error_map, Hi.
Qed.

(** X8. [export_latex_table] with a non-empty file name writes one file,
    of that name, holding exactly the LaTeX code it returns, and prints
    only the confirmation line; with no file name, or with the empty
    string, it prints the code and writes nothing.  When the table cannot
    be formatted the exception is passed on and nothing is written or
    printed. *)
Theorem export_latex_table_effects (self : WaterDensity)
    (filename : option string) :
  match export_latex_table self filename with
  | (Ok code, effects) =>
      (exists t, format_table self = Ok t /\ code = to_latex t)
      /\ match filename with
         | Some path =>
             if String.eqb path "" then
               written effects = [] /\ printed effects = [code]
             else
               written effects = [(path, code)]
               /\ printed effects = [("LaTeX table exported to " ++ path)%string]
         | None => written effects = [] /\ printed effects = [code]
         end
  | (Raise e, effects) => format_table self = Raise e /\ effects = []
  end.
Proof.
  unfold export_latex_table.
  destruct (format_table self) as [t|e]; [|now split].
  destruct filename as [path|]; cbn [truthy].
  - destruct (String.eqb path ""); cbn [negb];
      (split; [now exists t | now split]).
  - split; [now exists t | now split].
Qed.

(** [plot_regression], outcome by outcome. *)
Lemma plot_regression_cases (self : WaterDensity) :
  plot_regression self =
  match df self, fit_results self with
  | Some d, Some r =>
      let idx := np_argsort (List.map V d) in
      match take (List.map V d) idx, take (fit_y_pred r) idx with
      | Some xs, Some ys =>
          let u := List.map (band_half_width (fit_sigma_a r) (fit_sigma_b r)) xs in
          Drawn (mkFigure (List.map V d) (List.map M d)
                          (List.map sigma_V d) (List.map sigma_M d)
                          xs ys (best_fit_label r)
                          (arr_map2 PrimFloat.sub ys u)
                          (arr_map2 PrimFloat.add ys u))
      | _, _ => IndexError
      end
  | _, _ => PlotRaise (ValueError no_plot_msg)
  end.
Proof.
  unfold plot_regression.
  destruct (df self) as [d|], (fit_results self) as [r|]; reflexivity.
Qed.

(** The sorted volumes always exist: the indices of [np.argsort] are in
    bounds of the array they sort. *)
Lemma take_argsort (xs : list float) : take xs (np_argsort xs) <> None.
Proof.
  apply (take_permutation_bounds xs (np_argsort xs) (length xs)).
  - apply np_argsort_permutation.
  - lia.
Qed.

Lemma plot_regression_drawn_inv (self : WaterDensity) (d : DataFrame)
    (r : FitResults) (fig : Figure) :
  df self = Some d ->
  fit_results self = Some r ->
  plot_regression self = Drawn fig ->
  let idx := np_argsort (List.map V d) in
  let u := List.map (band_half_width (fit_sigma_a r) (fit_sigma_b r)) (line_x fig) in
  take (List.map V d) idx = Some (line_x fig)
  /\ take (fit_y_pred r) idx = Some (line_y fig)
  /\ band_upper fig = arr_map2 PrimFloat.add (line_y fig) u
  /\ band_lower fig = arr_map2 PrimFloat.sub (line_y fig) u
  /\ errorbar_x fig = List.map V d /\ errorbar_y fig = List.map M d
  /\ errorbar_xerr fig = List.map sigma_V d
  /\ errorbar_yerr fig = List.map sigma_M d.
Proof.
  intros Hdf Hfit. rewrite plot_regression_cases, Hdf, Hfit. cbv zeta.
  destruct (take (List.map V d) _) as [xs|]; [|discriminate].
  destruct (take (fit_y_pred r) _) as [ys|]; [|discriminate].
  intros [= <-]. cbn. repeat split.
Qed.

Lemma argsort_length (xs : list float) : length (np_argsort xs) = length xs.
Proof.
  rewrite (Permutation_length (np_argsort_permutation xs)).
  apply length_seq.
Qed.

(** With data and a fit, the plot is drawn when the fit has a prediction
    for every Measurement, and indexing fails when it has fewer. *)
Lemma plot_regression_with_fit (self : WaterDensity) (d : DataFrame)
    (r : FitResults) :
  df self = Some d ->
  fit_results self = Some r ->
  if (length d <=? length (fit_y_pred r))%nat
  then exists fig, plot_regression self = Drawn fig
  else plot_regression self = IndexError.
Proof.
  intros Hdf Hfit. rewrite plot_regression_cases, Hdf, Hfit. cbv zeta.
  pose proof (np_argsort_permutation (List.map V d)) as Hperm.
  pose proof (take_argsort (List.map V d)) as Hxs.
  rewrite length_map in Hperm.
  pose proof (take_permutation_bounds (fit_y_pred r) _ _ Hperm) as Hys.
  destruct (take (List.map V d) _) as [xs|]; [|contradiction].
  destruct (length d <=? length (fit_y_pred r))%nat eqn:Hle.
  - apply Nat.leb_le in Hle. apply Hys in Hle.
    destruct (take (fit_y_pred r) _) as [ys|]; [|contradiction].
    eexists. reflexivity.
  - apply Nat.leb_gt in Hle.
    destruct (take (fit_y_pred r) _) as [ys|]; [|reflexivity].
    assert (length d <= length (fit_y_pred r))%nat
      by (apply Hys; discriminate).
    lia.
Qed.

Lemma plot_drawn_lengths (self : WaterDensity) (d : DataFrame)
    (r : FitResults) (fig : Figure) :
  df self = Some d ->
  fit_results self = Some r ->
  plot_regression self = Drawn fig ->
  length (line_x fig) = length d
  /\ length (line_y fig) = length d
  /\ length (band_lower fig) = length d
  /\ length (band_upper fig) = length d.
Proof.
  intros Hdf Hfit Hplot.
  destruct (plot_regression_drawn_inv self d r fig Hdf Hfit Hplot)
    as (Hx & Hy & -> & -> & _).
  apply take_length in Hx, Hy.
  rewrite argsort_length, length_map in Hx, Hy.
  unfold arr_map2.
  rewrite !length_map, !length_combine, !length_map, Hx, Hy, Nat.min_id.
  repeat split.
Qed.

Lemma plot_drawn_pairs (self : WaterDensity) (d : DataFrame)
    (r : FitResults) (fig : Figure) :
  df self = Some d ->
  fit_results self = Some r ->
  plot_regression self = Drawn fig ->
  Permutation (combine (line_x fig) (line_y fig))
              (combine (List.map V d) (fit_y_pred r)).
Proof.
  intros Hdf Hfit Hplot.
  destruct (plot_regression_drawn_inv self d r fig Hdf Hfit Hplot)
    as (Hx & Hy & _).
  pose proof (np_argsort_permutation (List.map V d)) as Hperm.
  rewrite (take_pairs _ _ _ _ _ Hx Hy).
  rewrite <- pairs_of_indices.
  - now apply Permutation_map.
  - apply (take_permutation_bounds (fit_y_pred r) _ _ Hperm). congruence.
Qed.

(** A successful generation stores its Dataset, of [n] Measurements. *)
Lemma gen_fake_data_ok_inv (s s' : WaterDensity) (n : Z)
    (V_min V_max err_M err_V noise : float) (rs rs' : RandomState)
    (d : DataFrame) :
  gen_fake_data s n V_min V_max err_M err_V noise rs = (Ok d, s', rs') ->
  s' = set_df s d /\ Z.of_nat (length d) = n.
Proof.
  intros Hgen.
  rewrite gen_fake_data_cases in Hgen.
  destruct (np_linspace V_min V_max n) as [xs|e] eqn:Hxs; [|discriminate].
  destruct (np_random_uniform (- noise) noise n rs) as [[us|e] rs1] eqn:Hus;
    [|discriminate].
  destruct (numpy_same_shape _ _ _ _ _ _ _ _ _ Hxs Hus) as [Hshape Hlen].
  injection Hgen as <- <- _. split; [reflexivity|].
  now rewrite fake_df_length.
Qed.

(** X9. [plot_regression] raises [ValueError] exactly when the data or
    the fit is missing.  With both, it fails with an index error exactly
    when the stored fit has fewer predictions than the data have
    Measurements; otherwise it draws, and the fit line and both edges of
    the band have one point per Measurement. *)
Theorem plot_regression_outcome (self : WaterDensity) :
  match plot_regression self with
  | PlotRaise e =>
      e = ValueError no_plot_msg
      /\ (df self = None \/ fit_results self = None)
  | IndexError =>
      exists d r, df self = Some d /\ fit_results self = Some r
                  /\ (length (fit_y_pred r) < length d)%nat
  | Drawn fig =>
      exists d r, df self = Some d /\ fit_results self = Some r
                  /\ (length d <= length (fit_y_pred r))%nat
                  /\ length (line_x fig) = length d
                  /\ length (line_y fig) = length d
                  /\ length (band_lower fig) = length d
                  /\ length (band_upper fig) = length d
  end.
Proof.
  destruct (df self) as [d|] eqn:Hdf.
  2:{ rewrite plot_regression_cases, Hdf. split; [reflexivity | now left]. }
  destruct (fit_results self) as [r|] eqn:Hfit.
  2:{ rewrite plot_regression_cases, Hdf, Hfit.
      split; [reflexivity | now right]. }
  pose proof (plot_regression_with_fit self d r Hdf Hfit) as Hcase.
  destruct (length d <=? length (fit_y_pred r))%nat eqn:Hle.
  - destruct Hcase as [fig Hplot]. rewrite Hplot.
    apply Nat.leb_le in Hle.
    exists d, r.
    split; [reflexivity|]. split; [reflexivity|]. split; [exact Hle|].
    exact (plot_drawn_lengths self d r fig Hdf Hfit Hplot).
  - rewrite Hcase. apply Nat.leb_gt in Hle. now exists d, r.
Qed.

(** X10. Sorting for the plot keeps every prediction with its volume: the
    points of the fit line are the pairs (volume of Measurement [i],
    prediction [i] of the stored fit) in another order, the sorted
    volumes are the volume column rearranged, and the error bars are
    drawn from the four columns as they are stored. *)
Theorem plot_regression_keeps_pairs (self : WaterDensity) (d : DataFrame)
    (r : FitResults) (fig : Figure) :
  df self = Some d ->
  fit_results self = Some r ->
  plot_regression self = Drawn fig ->
  Permutation (combine (line_x fig) (line_y fig))
              (combine (List.map V d) (fit_y_pred r))
  /\ Permutation (line_x fig) (List.map V d)
  /\ errorbar_x fig = List.map V d /\ errorbar_y fig = List.map M d
  /\ errorbar_xerr fig = List.map sigma_V d
  /\ errorbar_yerr fig = List.map sigma_M d.
Proof.
  intros Hdf Hfit Hplot.
  destruct (plot_regression_drawn_inv self d r fig Hdf Hfit Hplot)
    as (Hx & _ & _ & _ & Hbars).
  split; [exact (plot_drawn_pairs self d r fig Hdf Hfit Hplot)|].
  split; [|exact Hbars].
  refine (take_rearranges _ _ _ _ Hx).
  apply np_argsort_permutation.
Qed.

(** X11. The band is the fit line plus and minus one amount per point,
    [sqrt ((x * sigma_a)^2 + sigma_b^2)] at the volume [x], and this
    amount is never a negative number (it is NaN or [>= 0]). *)
Theorem plot_regression_band (self : WaterDensity) (r : FitResults)
    (fig : Figure) (i : nat) (x y : float) :
  fit_results self = Some r ->
  plot_regression self = Drawn fig ->
  nth_error (line_x fig) i = Some x ->
  nth_error (line_y fig) i = Some y ->
  let u :=
    PrimFloat.sqrt ((x * fit_sigma_a r) * (x * fit_sigma_a r)
                    + float64_pow2 (fit_sigma_b r)) in
  nonneg_or_nan u = true
  /\ nth_error (band_upper fig) i = Some (y + u)
  /\ nth_error (band_lower fig) i = Some (y - u).
Proof.
  intros Hfit Hplot Hx Hy u.
  destruct (df self) as [d|] eqn:Hdf.
  2:{ rewrite plot_regression_cases, Hdf in Hplot. discriminate. }
  destruct (plot_regression_drawn_inv self d r fig Hdf Hfit Hplot)
    as (_ & _ & -> & -> & _).
  split; [apply sqrt_nonneg_or_nan|].
  assert (Hu : nth_error
                 (List.map (band_half_width (fit_sigma_a r) (fit_sigma_b r))
                           (line_x fig)) i = Some u)
    by now rewrite nth_error_map, Hx.
  split; now apply arr_map2_nth.
Qed.

(** X12. Generate, fit, plot: after a successful [gen_fake_data(n, ...)]
    and a successful [calculate_fit], [plot_regression] always draws; the
    fit line and the band have [n] points, which pair the generated
    volumes with the predictions of that fit. *)
Theorem generate_fit_plot (self s1 s2 : WaterDensity) (n : Z)
    (V_min V_max err_M err_V noise : float) (rs rs' : RandomState)
    (d : DataFrame) (r : FitResults) :
  gen_fake_data self n V_min V_max err_M err_V noise rs = (Ok d, s1, rs') ->
  calculate_fit s1 = (Ok r, s2) ->
  exists fig,
    plot_regression s2 = Drawn fig
    /\ Z.of_nat (length (line_x fig)) = n
    /\ Z.of_nat (length (band_lower fig)) = n
    /\ Z.of_nat (length (band_upper fig)) = n
    /\ Permutation (combine (line_x fig) (line_y fig))
                   (combine (List.map V d) (fit_y_pred r)).
Proof.
  intros Hgen Hfit.
  destruct (gen_fake_data_ok_inv _ _ _ _ _ _ _ _ _ _ _ Hgen) as [-> Hn].
  destruct (calculate_fit_ok_inv _ _ _ Hfit) as (d' & Hdf' & _ & Hr & ->).
  cbn [set_df df] in Hdf'. injection Hdf' as <-.
  set (s2 := set_fit_results (set_df self d) r).
  assert (Hdf : df s2 = Some d) by reflexivity.
  assert (Hres : fit_results s2 = Some r) by reflexivity.
  pose proof (plot_regression_with_fit s2 d r Hdf Hres) as Hcase.
  replace (length d <=? length (fit_y_pred r))%nat with true in Hcase
    by (symmetry; apply Nat.leb_le; rewrite Hr; cbn [spec_fit fit_y_pred];
        now rewrite length_map).
  destruct Hcase as [fig Hplot]. exists fig.
  destruct (plot_drawn_lengths s2 d r fig Hdf Hres Hplot)
    as (Hlx & _ & Hlo & Hup).
  rewrite Hlx, Hlo, Hup.
  repeat split; try assumption.
  exact (plot_drawn_pairs s2 d r fig Hdf Hres Hplot).
Qed.

(** X13. A fit is not redone, nor dropped, when the data are generated
    anew.  After [gen_fake_data(n1)], [calculate_fit] and
    [gen_fake_data(n2)], [plot_regression] still uses the fit of the first
    data: it fails with an index error when [n1 < n2], and otherwise draws
    the new volumes paired with the old predictions. *)
Theorem plot_regression_stale_fit (s0 s1 s2 s3 : WaterDensity) (n1 n2 : Z)
    (V_min1 V_max1 err_M1 err_V1 noise1 : float)
    (V_min2 V_max2 err_M2 err_V2 noise2 : float)
    (rs0 rs1 rs2 : RandomState) (d1 d2 : DataFrame) (r : FitResults) :
  gen_fake_data s0 n1 V_min1 V_max1 err_M1 err_V1 noise1 rs0 = (Ok d1, s1, rs1) ->
  calculate_fit s1 = (Ok r, s2) ->
  gen_fake_data s2 n2 V_min2 V_max2 err_M2 err_V2 noise2 rs1 = (Ok d2, s3, rs2) ->
  df s3 = Some d2
  /\ fit_results s3 = Some r
  /\ match plot_regression s3 with
     | IndexError => (n1 < n2)%Z
     | Drawn fig =>
         (n2 <= n1)%Z
         /\ Permutation (combine (line_x fig) (line_y fig))
                        (combine (List.map V d2) (fit_y_pred r))
     | PlotRaise _ => False
     end.
Proof.
  intros Hgen1 Hfit Hgen2.
  destruct (gen_fake_data_ok_inv _ _ _ _ _ _ _ _ _ _ _ Hgen1) as [-> Hn1].
  destruct (gen_fake_data_ok_inv _ _ _ _ _ _ _ _ _ _ _ Hgen2) as [-> Hn2].
  destruct (calculate_fit_ok_inv _ _ _ Hfit) as (d' & Hdf' & _ & Hr & ->).
  cbn [set_df df] in Hdf'. injection Hdf' as <-.
  assert (Hpred : length (fit_y_pred r) = length d1)
    by (rewrite Hr; apply length_map).
  set (s3 := set_df (set_fit_results (set_df s0 d1) r) d2).
  assert (Hdf3 : df s3 = Some d2) by reflexivity.
  assert (Hfit3 : fit_results s3 = Some r) by reflexivity.
  split; [exact Hdf3|]. split; [exact Hfit3|].
  pose proof (plot_regression_with_fit s3 d2 r Hdf3 Hfit3) as Hcase.
  destruct (length d2 <=? length (fit_y_pred r))%nat eqn:Hle.
  - destruct Hcase as [fig Hplot]. rewrite Hplot.
    apply Nat.leb_le in Hle.
    split; [lia|].
    exact (plot_drawn_pairs s3 d2 r fig Hdf3 Hfit3 Hplot).
  - rewrite Hcase. apply Nat.leb_gt in Hle. lia.
Qed.

(** X14. Generate, then format: on the Dataset of a successful
    [gen_fake_data(n, ...)], [format_table] returns a table of [n] rows,
    unless a generated mass or volume is a zero (as the first volume is
    when the range starts at 0), in which case it raises
    [ZeroDivisionError]. *)
Theorem generate_then_format (self s1 : WaterDensity) (n : Z)
    (V_min V_max err_M err_V noise : float) (rs rs' : RandomState)
    (d : DataFrame) :
  gen_fake_data self n V_min V_max err_M err_V noise rs = (Ok d, s1, rs') ->
  match format_table s1 with
  | Ok t => Z.of_nat (length t) = n /\ existsb has_zero d = false
  | Raise e => e = ZeroDivisionError /\ existsb has_zero d = true
  end.
Proof.
  intros Hgen.
  destruct (gen_fake_data_ok_inv _ _ _ _ _ _ _ _ _ _ _ Hgen) as [-> Hn].
  rewrite format_table_cases. cbn [set_df df].
  destruct (existsb has_zero d); [now split|].
  split; [|reflexivity].
  now rewrite length_map.
Qed.

(** X15. The methods must be called in order.  On an object as
    [__init__] leaves it, [calculate_fit], [format_table],
    [export_latex_table] and [plot_regression] all raise [ValueError], and
    the export writes and prints nothing; after a successful
    [gen_fake_data] on it, [plot_regression] still raises [ValueError],
    for want of a fit. *)
Theorem fresh_object_needs_data (M0' V0' rho' : float) (n : Z)
    (V_min V_max err_M err_V noise : float) (rs rs' : RandomState)
    (filename : option string) (d : DataFrame) (s1 : WaterDensity) :
  gen_fake_data (init M0' V0' rho') n V_min V_max err_M err_V noise rs
  = (Ok d, s1, rs') ->
  let fresh := init M0' V0' rho' in
  calculate_fit fresh = (Raise (ValueError no_data_msg), fresh)
  /\ format_table fresh = Raise (ValueError no_table_msg)
  /\ export_latex_table fresh filename = (Raise (ValueError no_table_msg), [])
  /\ plot_regression fresh = PlotRaise (ValueError no_plot_msg)
  /\ plot_regression s1 = PlotRaise (ValueError no_plot_msg).
Proof.
  intros Hgen fresh.
  destruct (gen_fake_data_ok_inv _ _ _ _ _ _ _ _ _ _ _ Hgen) as [-> _].
  repeat split.
Qed.

End Presenter.

(** ** The further properties on concrete data *)

Section MoreExamples.

#[local] Existing Instance Reference.numpy.
#[local] Existing Instance ReferenceLibs.libs.

Lemma calculate_fit_ignores_uncertainties_witness :
  List.map V line_data = List.map V line_data_flat
  /\ List.map M line_data = List.map M line_data_flat
  /\ match fst (calculate_fit (holding line_data)),
           fst (calculate_fit (holding line_data_flat)) with
     | Ok r1, Ok r2 => fit_values r1 = fit_values r2
     | Raise e1, Raise e2 => e1 = e2
     | _, _ => False
     end.
Proof.
  assert (HV : List.map V line_data = List.map V line_data_flat)
    by reflexivity.
  assert (HM : List.map M line_data = List.map M line_data_flat)
    by reflexivity.
  split; [exact HV|]. split; [exact HM|].
  exact (calculate_fit_ignores_uncertainties
           (holding line_data) (holding line_data_flat) _ _
           eq_refl eq_refl HV HM).
Defined.

Lemma generate_then_fit_witness :
  gen_fake_data (init 300 100 1) 3 100 200 0.5 0.25 0 quarter_draws
  = (Ok generated_three, set_df (init 300 100 1) generated_three,
     fun i => quarter_draws (i + 3)%nat)
  /\ match fst (calculate_fit (set_df (init 300 100 1) generated_three)) with
     | Ok r => Z.of_nat (length (fit_y_pred r)) = 3%Z
     | Raise _ => False
     end.
Proof.
  assert (Hgen : gen_fake_data (init 300 100 1) 3 100 200 0.5 0.25 0 quarter_draws
                 = (Ok generated_three, set_df (init 300 100 1) generated_three,
                    fun i => quarter_draws (i + 3)%nat)) by reflexivity.
  split; [exact Hgen|].
  pose proof (generate_then_fit _ _ _ _ _ _ _ _ _ _ _ Hgen) as H.
  destruct (fst (calculate_fit (set_df (init 300 100 1) generated_three)))
    as [r|e].
  - exact (proj1 (proj2 H)).
  - destruct H as (H0 & _). discriminate H0.
Defined.

Lemma calculate_fit_uncertainties_not_negative_witness :
  df (holding scattered_data) = Some scattered_data
  /\ calculate_fit (holding scattered_data)
     = (Ok scattered_fit, set_fit_results (holding scattered_data) scattered_fit)
  /\ nonneg_or_nan (fit_sigma_y scattered_fit) = true
  /\ nonneg_or_nan (fit_sigma_b scattered_fit) = true
  /\ nonneg_or_nan (fit_sigma_a scattered_fit) = true.
Proof.
  assert (Hdf : df (holding scattered_data) = Some scattered_data)
    by reflexivity.
  assert (Hfit : calculate_fit (holding scattered_data)
                 = (Ok scattered_fit,
                    set_fit_results (holding scattered_data) scattered_fit))
    by (vm_compute; reflexivity).
  destruct (calculate_fit_uncertainties_not_negative _ _ _ _ Hdf Hfit)
    as (Hy & Hb & Ha).
  split; [exact Hdf|]. split; [exact Hfit|].
  split; [exact Hy|]. split; [exact Hb|].
  apply Ha. vm_compute. reflexivity.
Defined.

Lemma format_table_rows_witness :
  df (holding line_data) = Some line_data
  /\ format_table (holding line_data) = Ok line_table
  /\ nth_error line_data 1 = Some (mkMeasurement 450 11.25 150 15)
  /\ nth_error line_table 1
     = Some (mkTableRow
               (format_f 3 450 ++ " \pm " ++ format_f 3 11.25)
               (format_f 3 (11.25 / 450))
               (format_f 3 150 ++ " \pm " ++ format_f 3 15)
               (format_f 3 (15 / 150))).
Proof.
  assert (Hdf : df (holding line_data) = Some line_data) by reflexivity.
  assert (Ht : format_table (holding line_data) = Ok line_table)
    by (vm_compute; reflexivity).
  assert (Hi : nth_error line_data 1 = Some (mkMeasurement 450 11.25 150 15))
    by reflexivity.
  split; [exact Hdf|]. split; [exact Ht|]. split; [exact Hi|].
  exact (format_table_rows _ _ _ _ _ Hdf Ht Hi).
Defined.

Lemma plot_regression_keeps_pairs_witness :
  plot_regression two_volumes_plotted = Drawn two_volumes_figure
  /\ Permutation (combine (line_x two_volumes_figure)
                          (line_y two_volumes_figure))
                 (combine (List.map V two_volumes) (fit_y_pred rough_fit)).
Proof.
  assert (Hplot : plot_regression two_volumes_plotted = Drawn two_volumes_figure)
    by (vm_compute; reflexivity).
  split; [exact Hplot|].
  exact (proj1 (plot_regression_keeps_pairs two_volumes_plotted two_volumes
                  rough_fit two_volumes_figure eq_refl eq_refl Hplot)).
Defined.

Lemma plot_regression_band_witness :
  plot_regression two_volumes_plotted = Drawn two_volumes_figure
  /\ nth_error (line_x two_volumes_figure) 0 = Some 3
  /\ nth_error (line_y two_volumes_figure) 0 = Some 5
  /\ nth_error (band_upper two_volumes_figure) 0
     = Some (5 + PrimFloat.sqrt ((3 * 0.5) * (3 * 0.5) + float64_pow2 2)).
Proof.
  assert (Hplot : plot_regression two_volumes_plotted = Drawn two_volumes_figure)
    by (vm_compute; reflexivity).
  split; [exact Hplot|]. split; [reflexivity|]. split; [reflexivity|].
  exact (proj1 (proj2 (plot_regression_band two_volumes_plotted rough_fit
                         two_volumes_figure 0 3 5 eq_refl Hplot
                         eq_refl eq_refl))).
Defined.

Lemma generate_fit_plot_witness :
  gen_fake_data (init 300 100 1) 3 100 200 0.5 0.25 0 quarter_draws
  = (Ok generated_three, set_df (init 300 100 1) generated_three,
     fun i => quarter_draws (i + 3)%nat)
  /\ exists fig,
       plot_regression
         (snd (calculate_fit (set_df (init 300 100 1) generated_three)))
       = Drawn fig
       /\ Z.of_nat (length (line_x fig)) = 3%Z.
Proof.
  assert (Hgen : gen_fake_data (init 300 100 1) 3 100 200 0.5 0.25 0 quarter_draws
                 = (Ok generated_three, set_df (init 300 100 1) generated_three,
                    fun i => quarter_draws (i + 3)%nat)) by reflexivity.
  split; [exact Hgen|].
  set (s1 := set_df (init 300 100 1) generated_three).
  assert (Hfit : calculate_fit s1
                 = (Ok (spec_fit s1 generated_three), snd (calculate_fit s1)))
    by (vm_compute; reflexivity).
  destruct (generate_fit_plot _ _ _ _ _ _ _ _ _ _ _ _ _ Hgen Hfit)
    as (fig & Hplot & Hlen & _).
  exists fig. split; [exact Hplot | exact Hlen].
Defined.

Lemma plot_regression_stale_fit_witness :
  gen_fake_data (init 300 100 1) 2 100 200 0.5 0.25 0 quarter_draws
  = (Ok generated_two, set_df (init 300 100 1) generated_two,
     fun i => quarter_draws (i + 2)%nat)
  /\ plot_regression
       (set_df (snd (calculate_fit (set_df (init 300 100 1) generated_two)))
               generated_three)
     = IndexError.
Proof.
  set (s1 := set_df (init 300 100 1) generated_two).
  set (rs1 := fun i => quarter_draws (i + 2)%nat).
  assert (Hgen1 : gen_fake_data (init 300 100 1) 2 100 200 0.5 0.25 0 quarter_draws
                  = (Ok generated_two, s1, rs1)) by reflexivity.
  assert (Hfit : calculate_fit s1
                 = (Ok (spec_fit s1 generated_two), snd (calculate_fit s1)))
    by (vm_compute; reflexivity).
  assert (Hgen2 : gen_fake_data (snd (calculate_fit s1)) 3 100 200 0.5 0.25 0 rs1
                  = (Ok generated_three,
                     set_df (snd (calculate_fit s1)) generated_three,
                     fun i => rs1 (i + 3)%nat))
    by (vm_compute; reflexivity).
  split; [exact Hgen1|].
  pose proof (plot_regression_stale_fit _ _ _ _ _ _ _ _ _ _ _ _ _ _ _ _ _ _
                _ _ _ _ Hgen1 Hfit Hgen2) as (_ & _ & H).
  destruct (plot_regression
              (set_df (snd (calculate_fit s1)) generated_three))
    as [fig|e|].
  - destruct H as [H _]. lia.
  - contradiction.
  - reflexivity.
Defined.

Lemma generate_then_format_witness :
  gen_fake_data (init 300 100 1) 3 100 200 0.5 0.25 0 quarter_draws
  = (Ok generated_three, set_df (init 300 100 1) generated_three,
     fun i => quarter_draws (i + 3)%nat)
  /\ match format_table (set_df (init 300 100 1) generated_three) with
     | Ok t => Z.of_nat (length t) = 3%Z
     | Raise _ => False
     end.
Proof.
  assert (Hgen : gen_fake_data (init 300 100 1) 3 100 200 0.5 0.25 0 quarter_draws
                 = (Ok generated_three, set_df (init 300 100 1) generated_three,
                    fun i => quarter_draws (i + 3)%nat)) by reflexivity.
  split; [exact Hgen|].
  pose proof (generate_then_format _ _ _ _ _ _ _ _ _ _ _ Hgen) as H.
  destruct (format_table (set_df (init 300 100 1) generated_three)) as [t|e].
  - exact (proj1 H).
  - destruct H as [_ H]. vm_compute in H. discriminate H.
Defined.

Lemma fresh_object_needs_data_witness :
  gen_fake_data (init 300 100 1) 3 100 200 0.5 0.25 0 quarter_draws
  = (Ok generated_three, set_df (init 300 100 1) generated_three,
     fun i => quarter_draws (i + 3)%nat)
  /\ plot_regression (set_df (init 300 100 1) generated_three)
     = PlotRaise (ValueError no_plot_msg).
Proof.
  assert (Hgen : gen_fake_data (init 300 100 1) 3 100 200 0.5 0.25 0 quarter_draws
                 = (Ok generated_three, set_df (init 300 100 1) generated_three,
                    fun i => quarter_draws (i + 3)%nat)) by reflexivity.
  split; [exact Hgen|].
  exact (proj2 (proj2 (proj2 (proj2
           (fresh_object_needs_data 300 100 1 3 100 200 0.5 0.25 0
              quarter_draws _ None _ _ Hgen))))).
Defined.

End MoreExamples.
